(** * bioconda_utils.build: the build scheduler, embedded and verified

    A shallow embedding of [src/bioconda_utils/build.py]: the two functions
    [build] and [test_recipes], the Python operations they rely on
    (exceptions, name lookup, [sorted], slicing, indexing, [dict]) and the
    parts of networkx they call ([connected_components], [subgraph],
    [topological_sort]).

    External collaborators (conda-build, the docker builder, the mulled
    test, anaconda upload, the file system, [utils.*]) are a record of
    oracles, [World]; every call to one of them is recorded in a trace.

    Left out: the [logger] calls, which do not change the control flow;
    the parsing of [SUBDAGS] and [SUBDAG] by [int], which are taken as
    integers; the import of the docker client; and the decoding of the
    upload's output, taken as text. *)

From Stdlib Require Import ZArith.
From stdpp Require Import base tactics option list sorting relations gmap strings.

Open Scope string_scope.
Open Scope nat_scope.
Open Scope list_scope.

(** ** Python results, exceptions, and the call trace *)

Module Py.

(** The exceptions that can travel through [build] and [test_recipes]. *)
Inductive exn :=
  | NameError (name : string)
  | KeyError (key : string)
  | IndexError
  | CalledProcessError (stdout : string)
  | DockerCalledProcessError (stdout : string)
  | NetworkXUnfeasible
  | OSError (msg : string).

Inductive result (A : Type) :=
  | Returns (a : A)
  | Raises (e : exn).
Arguments Returns {A} a.
Arguments Raises {A} e.

(** What a function of the module hands back: [None] or a [bool]. *)
Inductive value :=
  | PyNone
  | PyBool (b : bool).

#[global] Instance exn_eq_dec : EqDecision exn.
Proof. solve_decision. Defined.
#[global] Instance value_eq_dec : EqDecision value.
Proof. solve_decision. Defined.

End Py.
Export Py.

(** An environment of a target: the [env] dictionary, as its items. *)
Definition Env := list (string * string).

(** One call to an external collaborator. *)
Inductive event :=
  | DockerBuild (recipe_dir : string) (build_args : string) (env : Env)
  | CondaBuild (cmd : list string) (env : Env)
  | MulledTest (pkg_path : string)
  | AnacondaUpload (token : option string) (package : string).

#[global] Instance event_eq_dec : EqDecision event.
Proof. solve_decision. Defined.

(** A computation: the collaborator calls it made, and how it ended. *)
Definition M (A : Type) : Type := list event * result A.

Definition ret {A} (a : A) : M A := ([], Returns a).
Definition raise {A} (e : exn) : M A := ([], Raises e).
Definition emit (ev : event) : M unit := ([ev], Returns tt).
Definition lift {A} (r : result A) : M A := ([], r).

Definition bind {A B} (m : M A) (k : A → M B) : M B :=
  match m with
  | (t, Returns a) => let '(t', r) := k a in (t ++ t', r)
  | (t, Raises e) => (t, Raises e)
  end.

Notation "x <- m ;; k" := (bind m (λ x, k))
  (at level 100, m at next level, right associativity, only parsing).
Notation "m >> k" := (bind m (λ _, k))
  (at level 100, right associativity, only parsing).

Definition trace {A} (m : M A) : list event := m.1.
Definition outcome {A} (m : M A) : result A := m.2.

(** A [for] loop that threads the loop-carried variable [s]. *)
Fixpoint for_each {A S} (l : list A) (body : A → S → M S) (s : S) : M S :=
  match l with
  | [] => ret s
  | x :: l' => s' <- body x s ;; for_each l' body s'
  end.

(** ** Name lookup

    Neither function assigns [failed], [skip_dependent] or [sys]; such a
    name is looked up in the module's globals (then the builtins, which
    have none of the three). *)

Definition module_globals : list string :=
  ["sp"; "defaultdict"; "os"; "logging"; "nx"; "utils"; "docker_utils";
   "pkg_test"; "api"; "logger"; "build"; "test_recipes"].

Definition load_global (name : string) : M unit :=
  if decide (name ∈ module_globals) then ret tt else raise (NameError name).

(** ** Python sequences: comparison, [sorted], slices, subscripts, [dict] *)

(** [l1 <= l2] on lists of strings: the first differing item decides, a
    proper prefix is smaller. *)
Fixpoint list_leb (l1 l2 : list string) : bool :=
  match l1, l2 with
  | [], _ => true
  | _ :: _, [] => false
  | x :: l1', y :: l2' =>
      match String.compare x y with
      | Lt => true
      | Gt => false
      | Eq => list_leb l1' l2'
      end
  end.

Definition list_le (l1 l2 : list string) : Prop := list_leb l1 l2.

#[global] Instance list_le_dec : RelDecision list_le.
Proof. intros l1 l2. unfold list_le. apply _. Defined.

(** [sorted(names)] and [sorted(lists_of_names)]. *)
Definition sorted_names : list string → list string := merge_sort String.le.
Definition sorted_lists : list (list string) → list (list string) :=
  merge_sort list_le.

(** [l[start::step]] for [0 <= start] and [1 <= step]; [j] is the index of
    the head of [l] in the sliced list. *)
Fixpoint slice_go {A} (start step j : nat) (l : list A) : list A :=
  match l with
  | [] => []
  | x :: l' =>
      if decide (start ≤ j ∧ (j - start) `mod` step = 0)
      then x :: slice_go start step (S j) l'
      else slice_go start step (S j) l'
  end.

Definition py_slice {A} (start step : nat) (l : list A) : list A :=
  slice_go start step 0 l.

(** [range(n)]: empty when [n <= 0]. *)
Definition range (n : Z) : list nat := seq 0 (Z.to_nat n).

(** [l[i]]: a negative [i] counts from the end. *)
Definition py_index {A} (l : list A) (i : Z) : result A :=
  let n := Z.of_nat (length l) in
  let j := if decide (i < 0)%Z then (i + n)%Z else i in
  if decide (0 ≤ j < n)%Z then
    match l !! Z.to_nat j with
    | Some x => Returns x
    | None => Raises IndexError
    end
  else Raises IndexError.

(** [dict(pairs)]: a later pair wins; [d[k]] raises [KeyError]. *)
Definition dict {V} (pairs : list (string * V)) : gmap string V :=
  list_to_map (reverse pairs).

Definition subscript {V} (d : gmap string V) (k : string) : result V :=
  match d !! k with
  | Some v => Returns v
  | None => Raises (KeyError k)
  end.

(** [list(d.keys())] for [d = dict(pairs)]: keys in first-insertion order. *)
Fixpoint keys_go (seen : list string) (ks : list string) : list string :=
  match ks with
  | [] => []
  | k :: ks' =>
      if decide (k ∈ seen) then keys_go seen ks'
      else k :: keys_go (k :: seen) ks'
  end.

Definition dict_keys {V} (pairs : list (string * V)) : list string :=
  keys_go [] (pairs.*1).

(** [needle in hay] on strings. *)
Fixpoint contains (needle hay : string) : bool :=
  String.prefix needle hay ||
  match hay with
  | EmptyString => false
  | String _ hay' => contains needle hay'
  end.

(** ** networkx

    The library is not part of the repository; the functions the scheduler
    calls are modelled by executable definitions with the library's
    documented behaviour. A graph keeps its nodes in iteration order. *)

Module nx.

Record DiGraph := {
  nodes : list string;
  edges : list (string * string)     (* (a, b): an edge a -> b *)
}.

(** [dag.to_undirected()]: every edge can be walked both ways. *)
Definition to_undirected (g : DiGraph) : DiGraph :=
  {| nodes := nodes g; edges := edges g ++ map (λ e, (e.2, e.1)) (edges g) |}.

Definition adjacent (g : DiGraph) (a b : string) : bool :=
  bool_decide ((a, b) ∈ edges g).

(** One round of breadth-first search: add the nodes next to [comp]. *)
Definition fresh (g : DiGraph) (comp : list string) : list string :=
  filter (λ n, (n ∉ comp) ∧ (Exists (λ c, adjacent g c n) comp)) (nodes g).

Definition grow (g : DiGraph) (comp : list string) : list string :=
  comp ++ fresh g comp.

Fixpoint closure (fuel : nat) (g : DiGraph) (comp : list string) : list string :=
  match fuel with
  | 0 => comp
  | S fuel' => closure fuel' g (grow g comp)
  end.

(** The nodes reachable from [v]; no search needs more rounds than there
    are nodes. *)
Definition component (g : DiGraph) (v : string) : list string :=
  closure (length (nodes g)) g [v].

Fixpoint components_go (g : DiGraph) (todo seen : list string)
  : list (list string) :=
  match todo with
  | [] => []
  | v :: todo' =>
      if decide (v ∈ seen) then components_go g todo' seen
      else let c := component g v in c :: components_go g todo' (c ++ seen)
  end.

(** [nx.connected_components(g)] for an undirected [g]. *)
Definition connected_components (g : DiGraph) : list (list string) :=
  components_go g (nodes g) [].

(** [g.subgraph(bunch)]: the nodes of [g] that are in [bunch], and the
    edges between them. *)
Definition subgraph (g : DiGraph) (bunch : list string) : DiGraph :=
  {| nodes := filter (λ n, n ∈ bunch) (nodes g);
     edges := filter (λ e, e.1 ∈ bunch ∧ e.2 ∈ bunch) (edges g) |}.

(** [n] still waits for a node of [rem]. *)
Definition has_pred (es : list (string * string)) (rem : list string)
    (n : string) : Prop :=
  Exists (λ e, e.2 = n ∧ e.1 ∈ rem) es.

(** Kahn's algorithm: repeatedly emit a remaining node none of whose
    predecessors remains; if there is none, the graph has a cycle. *)
Fixpoint topo_go (fuel : nat) (es : list (string * string))
    (rem : list string) : result (list string) :=
  match rem with
  | [] => Returns []
  | _ :: _ =>
      match fuel with
      | 0 => Raises NetworkXUnfeasible
      | S fuel' =>
          match list_find (λ n, ¬ has_pred es rem n) rem with
          | None => Raises NetworkXUnfeasible
          | Some (_, n) =>
              match topo_go fuel' es (filter (λ m, m ≠ n) rem) with
              | Returns order => Returns (n :: order)
              | Raises e => Raises e
              end
          end
      end
  end.

(** [nx.topological_sort(g)]. Which of several ready nodes comes first is
    the library's choice (here: the first in node order); the statements
    only use that the result is a topological order of all nodes, and that
    a cycle raises [NetworkXUnfeasible]. *)
Definition topological_sort (g : DiGraph) : result (list string) :=
  topo_go (length (nodes g)) (edges g) (nodes g).

End nx.

(** ** The world outside the module *)

(** A build target: [target.env] and [target.pkg]. *)
Record Target := {
  env : Env;
  pkg : string
}.

(** A [docker_utils.RecipeBuilder] and the keyword arguments it got. *)
Record RecipeBuilder := {
  image : option string;
  requirements : option string
}.

(** The parsed configuration: [config['channels']], and the optional keys
    [docker_image] and [requirements]. *)
Record Config := {
  channels : list string;
  cfg_docker_image : option string;
  cfg_requirements : option string
}.

(** How a call to an external program ended: it ran and exited, or the
    call itself raised (the program could not be started, say). *)
Inductive call_result :=
  | Exited (returncode : Z) (stdout : string)
  | CannotRun (e : exn).

(** The mapping [name2recipes] returned by [utils.get_dag], as its
    subscript operation. *)
Definition Name2Recipes := string → result (list string).

Record World := {
  (* os.path, os.environ *)
  abspath : string → string;
  relpath : string → string;
  path_exists : string → bool;
  SUBDAGS : option Z;
  SUBDAG : option Z;
  TRAVIS_BRANCH : option string;
  TRAVIS_PULL_REQUEST : option string;
  ANACONDA_TOKEN : option string;
  (* utils *)
  blacklist : list string;
  get_recipes : string → list string;
  filter_recipes : list string → list string → bool → list (string * list Target);
  get_dag : list string → result (nx.DiGraph * Name2Recipes);
  built_package_path : string → Env → string;
  (* external programs *)
  build_recipe : RecipeBuilder → string → string → Env → call_result;
  conda_build : list string → Env → call_result;
  test_package : string → call_result;
  anaconda_upload : option string → string → call_result
}.

(** [sp.run(..., check=True)]: a non-zero exit status raises
    [CalledProcessError]. *)
Definition sp_run (c : call_result) : result unit :=
  match c with
  | Exited rc out =>
      if decide (rc = 0%Z) then Returns tt else Raises (CalledProcessError out)
  | CannotRun e => Raises e
  end.

(** [docker_builder.build_recipe(...)]: a failing container raises
    [DockerCalledProcessError]. *)
Definition docker_run (c : call_result) : result unit :=
  match c with
  | Exited rc out =>
      if decide (rc = 0%Z) then Returns tt
      else Raises (DockerCalledProcessError out)
  | CannotRun e => Raises e
  end.

(** ** [build] (lines 14-130) *)

(** Where the [try] block of [build] leaves the function: at a [return], or
    after it with [build_success] set. *)
Inductive try_exit :=
  | Return (b : bool)
  | Next (build_success : bool).

(** Lines 58-67 and 72. *)
Definition build_args (testonly : bool) : list string :=
  if testonly then ["--test"] else ["--no-anaconda-upload"].

Definition channel_args (channels : list string) : list string :=
  flat_map (λ c, ["--channel"; c]) channels.

Definition CONDA_BUILD_CMD : list string := ["conda"; "build"].

Definition build (w : World) (recipe : string) (env : Env)
    (testonly mulled_test : bool) (channels : list string)
    (docker_builder : option RecipeBuilder) : M bool :=
  after_try <-
    match docker_builder with
    | Some builder =>
        let recipe_dir := abspath w recipe in
        let args :=
          String.concat " " (channel_args channels ++ build_args testonly) in
        emit (DockerBuild recipe_dir args env) >>
        match docker_run (build_recipe w builder recipe_dir args env) with
        | Returns _ =>
            let pkg := built_package_path w recipe env in
            if path_exists w pkg then ret (Next true) else ret (Return false)
        | Raises (DockerCalledProcessError _) => ret (Return false)
        | Raises (CalledProcessError _) => ret (Return false)
        | Raises e => raise e
        end
    | None =>
        let cmd := CONDA_BUILD_CMD ++ [recipe] in
        emit (CondaBuild cmd env) >>
        match sp_run (conda_build w cmd env) with
        | Returns _ => ret (Next true)
        | Raises (DockerCalledProcessError _) => ret (Return false)
        | Raises (CalledProcessError _) => ret (Return false)
        | Raises e => raise e
        end
    end ;;
  match after_try with
  | Return b => ret b
  | Next build_success =>
      if negb mulled_test then ret build_success
      else
        let pkg_path := built_package_path w recipe env in
        emit (MulledTest pkg_path) >>
        match test_package w pkg_path with
        | Exited returncode _ =>
            let test_success := bool_decide (returncode = 0%Z) in
            ret (test_success && build_success)
        | CannotRun e => raise e
        end
  end.

(** ** [test_recipes] (lines 133-315) *)

(** The [packages] argument: a string or a list of globs. *)
Inductive Packages :=
  | PackagesStr (s : string)
  | PackagesList (l : list string).

(** [for package in packages], after ["*"] was replaced by [["*"]]; any
    other string is iterated character by character. *)
Definition iter_packages (packages : Packages) : list string :=
  match packages with
  | PackagesStr s =>
      if decide (s = "*") then ["*"]
      else map (λ c, String c EmptyString) (String.list_ascii_of_string s)
  | PackagesList l => l
  end.

(** Lines 177-184: the recipes of the matching packages, less the
    blacklisted ones. *)
Definition collect_recipes (w : World) (packages : Packages) : list string :=
  flat_map
    (λ package,
       filter (λ recipe, relpath w recipe ∉ blacklist w) (get_recipes w package))
    (iter_packages packages).

(** Lines 208-215: the subdags, sorted. *)
Definition make_subdags (testonly : bool) (dag : nx.DiGraph)
  : list (list string) :=
  if testonly then sorted_lists (map (λ n, [n]) (nx.nodes dag))
  else sorted_lists
         (map sorted_names (nx.connected_components (nx.to_undirected dag))).

(** Lines 216-221: at most [subdags_n] chunks. *)
Definition make_chunks (subdags_n : Z) (subdags : list (list string))
  : list (list string) :=
  if decide (subdags_n < Z.of_nat (length subdags))%Z then
    map (λ i, concat (py_slice i (Z.to_nat subdags_n) subdags)) (range subdags_n)
  else subdags.

(** Lines 226-231: the recipes of the chunk, in build order. *)
Definition plan_packages (dag : nx.DiGraph) (chunk : list string)
  : result (list string) :=
  nx.topological_sort (nx.subgraph dag chunk).

Definition plan_recipes (name2recipes : Name2Recipes) (order : list string)
  : M (list string) :=
  for_each order
    (λ package acc, rs <- lift (name2recipes package) ;; ret (acc ++ rs)) [].

(** Lines 238-254. *)
Definition make_builder (config : Config) (docker : bool)
  : option RecipeBuilder :=
  if docker
  then Some {| image := cfg_docker_image config;
               requirements := cfg_requirements config |}
  else None.

(** Lines 256-268: build every target of every recipe. *)
Definition build_all (w : World) (config : Config)
    (recipe_targets : gmap string (list Target)) (recipes : list string)
    (mulled_test testonly : bool) (builder : option RecipeBuilder) : M bool :=
  for_each recipes
    (λ recipe success,
       targets <- lift (subscript recipe_targets recipe) ;;
       for_each targets
         (λ target success,
            built <- build w recipe (env target) testonly mulled_test
                       (channels config) builder ;;
            ret (success && built))
         success)
    true.

(** Lines 270-280: the report starts by evaluating [len(failed)]; the rest
    of the statement only logs (and reads [skip_dependent]). *)
Definition report : M unit :=
  load_global "failed".

(** Lines 282-314: upload the packages when on master. *)
Definition upload_all (w : World)
    (recipe_targets : gmap string (list Target)) (recipes : list string)
    (testonly : bool) (success : bool) : M bool :=
  if negb testonly then
    if bool_decide (TRAVIS_BRANCH w = Some "master"
                    ∧ TRAVIS_PULL_REQUEST w = Some "false")
    then
      for_each recipes
        (λ recipe success,
           targets <- lift (subscript recipe_targets recipe) ;;
           for_each targets
             (λ target success,
                let package := pkg target in
                if path_exists w package then
                  emit (AnacondaUpload (ANACONDA_TOKEN w) package) >>
                  match sp_run (anaconda_upload w (ANACONDA_TOKEN w) package) with
                  | Returns _ => ret success
                  | Raises (CalledProcessError stdout) =>
                      (* print(e.stdout.decode(), file=sys.stderr) *)
                      load_global "sys" >>
                      if contains "already exists" stdout then ret success
                      else raise (CalledProcessError stdout)
                  | Raises e => raise e
                  end
                else ret false)
             success)
        success
    else ret success
  else ret success.

Definition test_recipes (w : World) (config : Config) (packages : Packages)
    (mulled_test testonly force docker : bool) : M value :=
  let recipes := collect_recipes w packages in
  if decide (recipes = []) then ret PyNone
  else
    let pairs := filter_recipes w recipes (channels config) force in
    let recipe_targets := dict pairs in
    let recipes := dict_keys pairs in
    got <- lift (get_dag w recipes) ;;
    let '(dag, name2recipes) := got in
    if decide (nx.nodes dag = []) then ret (PyBool true)
    else
      let subdags_n := default 1%Z (SUBDAGS w) in
      let subdag_i := default 0%Z (SUBDAG w) in
      let subdags := make_subdags testonly dag in
      let chunks := make_chunks subdags_n subdags in
      if decide (Z.of_nat (length chunks) ≤ subdag_i)%Z then ret (PyBool true)
      else
        chunk <- lift (py_index chunks subdag_i) ;;
        order <- lift (plan_packages dag chunk) ;;
        recipes <- plan_recipes name2recipes order ;;
        let builder := make_builder config docker in
        success <- build_all w config recipe_targets recipes
                     mulled_test testonly builder ;;
        report >>
        success <- upload_all w recipe_targets recipes testonly success ;;
        ret (PyBool success).

(** ** Vocabulary of the statements *)

(** The call with which [build] starts the build of a target. *)
Definition build_call (w : World) (recipe : string) (env : Env)
    (testonly : bool) (channels : list string)
    (docker_builder : option RecipeBuilder) : event :=
  match docker_builder with
  | Some _ =>
      DockerBuild (abspath w recipe)
        (String.concat " " (channel_args channels ++ build_args testonly)) env
  | None => CondaBuild (CONDA_BUILD_CMD ++ [recipe]) env
  end.

Definition is_build_call (ev : event) : bool :=
  match ev with
  | DockerBuild _ _ _ | CondaBuild _ _ => true
  | MulledTest _ | AnacondaUpload _ _ => false
  end.

(** The (recipe, target) pairs the loops of [test_recipes] go through. *)
Definition planned_targets (recipe_targets : gmap string (list Target))
    (recipes : list string) : list (string * Target) :=
  flat_map (λ recipe, map (λ target, (recipe, target))
                          (default [] (recipe_targets !! recipe)))
           recipes.

(** The build programs and the mulled test can always be started. *)
Definition programs_start (w : World) : Prop :=
  (∀ b dir args e, ∃ rc out, build_recipe w b dir args e = Exited rc out) ∧
  (∀ cmd e, ∃ rc out, conda_build w cmd e = Exited rc out) ∧
  (∀ p, ∃ rc out, test_package w p = Exited rc out).

(** What [build] answers when its programs can be started: the build
    program exited with 0, the docker build left the package on disk, and
    the mulled test, when asked for, exited with 0. *)
Definition exit_ok (c : call_result) : bool :=
  match c with
  | Exited rc _ => bool_decide (rc = 0%Z)
  | CannotRun _ => false
  end.

Definition build_verdict (w : World) (recipe : string) (env : Env)
    (testonly mulled_test : bool) (channels : list string)
    (docker_builder : option RecipeBuilder) : bool :=
  match docker_builder with
  | Some builder =>
      exit_ok (build_recipe w builder (abspath w recipe)
                 (String.concat " " (channel_args channels ++ build_args testonly))
                 env)
      && path_exists w (built_package_path w recipe env)
  | None => exit_ok (conda_build w (CONDA_BUILD_CMD ++ [recipe]) env)
  end
  && (negb mulled_test
      || exit_ok (test_package w (built_package_path w recipe env))).

(** The same for a (recipe, target) pair of the loop, and the body of the
    inner loop of lines 258-268. *)
Definition target_verdict (w : World) (config : Config)
    (mulled_test testonly : bool) (builder : option RecipeBuilder)
    (rt : string * Target) : bool :=
  build_verdict w rt.1 (env rt.2) testonly mulled_test (channels config) builder.

Definition target_call (w : World) (config : Config) (testonly : bool)
    (builder : option RecipeBuilder) (rt : string * Target) : event :=
  build_call w rt.1 (env rt.2) testonly (channels config) builder.

Definition build_step (w : World) (config : Config)
    (mulled_test testonly : bool) (builder : option RecipeBuilder)
    (recipe : string) (target : Target) (success : bool) : M bool :=
  built <- build w recipe (env target) testonly mulled_test
             (channels config) builder ;;
  ret (success && built).

(** How the build program of [build] ended, and the exceptions the
    [except] clause of lines 104-109 catches. *)
Definition build_program_result (w : World) (recipe : string) (env : Env)
    (testonly : bool) (channels : list string)
    (docker_builder : option RecipeBuilder) : call_result :=
  match docker_builder with
  | Some builder =>
      build_recipe w builder (abspath w recipe)
        (String.concat " " (channel_args channels ++ build_args testonly)) env
  | None => conda_build w (CONDA_BUILD_CMD ++ [recipe]) env
  end.

Definition is_caught (e : exn) : bool :=
  match e with
  | CalledProcessError _ | DockerCalledProcessError _ => true
  | _ => false
  end.

(** The upload of the package of a (recipe, target) pair, and whether the
    package is on disk. *)
Definition upload_call (w : World) (rt : string * Target) : event :=
  AnacondaUpload (ANACONDA_TOKEN w) (pkg rt.2).

Definition package_exists (w : World) (rt : string * Target) : bool :=
  path_exists w (pkg rt.2).

(** An edge a -> b of the graph: [b] depends on [a]. *)
Definition edge (g : nx.DiGraph) (a b : string) : Prop :=
  (a, b) ∈ nx.edges g.

(** A dependency graph as networkx keeps it: no node twice, and every
    edge between two nodes. *)
Definition well_formed (g : nx.DiGraph) : Prop :=
  NoDup (nx.nodes g)
  ∧ ∀ a b, edge g a b → a ∈ nx.nodes g ∧ b ∈ nx.nodes g.

(** No package depends, directly or not, on itself. *)
Definition acyclic (g : nx.DiGraph) : Prop :=
  ∀ a, ¬ tc (edge g) a a.

(** Two nodes of an undirected graph that are next to each other, the
    nodes that can be reached from one another, and a set of nodes that no
    edge leaves. *)
Definition link (g : nx.DiGraph) (a b : string) : Prop :=
  nx.adjacent g a b ∧ a ∈ nx.nodes g ∧ b ∈ nx.nodes g.

Definition connected (g : nx.DiGraph) : relation string := rtc (link g).

Definition closed (g : nx.DiGraph) (comp : list string) : Prop :=
  ∀ a b, a ∈ comp → nx.adjacent g a b → b ∈ nx.nodes g → b ∈ comp.

(** [a] comes before [b] in [order]. *)
Definition precedes (order : list string) (a b : string) : Prop :=
  ∃ i j, order !! i = Some a ∧ order !! j = Some b ∧ i < j.

(** The recipes of a package, as [name2recipes] gives them. *)
Definition recipes_of (name2recipes : Name2Recipes) (package : string)
  : list string :=
  match name2recipes package with
  | Returns recipes => recipes
  | Raises _ => []
  end.

(** Two values that stand for one graph: the same nodes and the same
    edges, enumerated in any order. *)
Definition same_graph (g1 g2 : nx.DiGraph) : Prop :=
  nx.nodes g1 ≡ₚ nx.nodes g2
  ∧ ∀ e, e ∈ nx.edges g1 ↔ e ∈ nx.edges g2.

(** ** Example runs *)

Module Examples.

(** Three packages in a chain: [c] depends on [b], [b] depends on [a]. *)
Definition chain : nx.DiGraph :=
  {| nx.nodes := ["a"; "b"; "c"]; nx.edges := [("a", "b"); ("b", "c")] |}.

Definition recipe_of (package : string) : string :=
  String.append "recipes/" package.

Definition package_file (recipe : string) : string :=
  String.append recipe ".tar.bz2".

Definition target_of (recipe : string) : Target :=
  {| env := [("CONDA_PY", "35")]; pkg := package_file recipe |}.

Definition config : Config :=
  {| channels := ["bioconda"]; cfg_docker_image := None;
     cfg_requirements := None |}.

(** A run over [dag] on a worker where the build of the recipes in
    [broken] fails, the packages in [missing] are not on disk, and every
    upload ends as [upload]. *)
Definition world (dag : nx.DiGraph) (found : list string)
    (broken missing : list string) (branch : option string)
    (upload : call_result) (subdags subdag : option Z) : World :=
  {| abspath := λ recipe, String.append "/" recipe;
     relpath := λ recipe, recipe;
     path_exists := λ path, bool_decide (path ∉ missing);
     SUBDAGS := subdags;
     SUBDAG := subdag;
     TRAVIS_BRANCH := branch;
     TRAVIS_PULL_REQUEST := Some "false";
     ANACONDA_TOKEN := Some "token";
     blacklist := [];
     get_recipes := λ _, found;
     filter_recipes := λ recipes _ _,
       map (λ recipe, (recipe, [target_of recipe])) recipes;
     get_dag := λ _, Returns (dag, λ package, Returns [recipe_of package]);
     built_package_path := λ recipe _, package_file recipe;
     build_recipe := λ _ _ _ _, Exited 0 "";
     conda_build := λ cmd _,
       if decide (Exists (λ recipe, recipe ∈ cmd) broken)
       then Exited 1 "build failed" else Exited 0 "";
     test_package := λ _, Exited 0 "";
     anaconda_upload := λ _ _, upload |}.

Definition chain_recipes : list string :=
  ["recipes/a"; "recipes/b"; "recipes/c"].

(** The chain, with the build of [a] failing. *)
Definition a_fails : World :=
  world chain chain_recipes ["recipes/a"] [] None (Exited 0 "") None None.

(** The chain, everything succeeds, not on master. *)
Definition all_fine : World :=
  world chain chain_recipes [] [] None (Exited 0 "") None None.

(** The chain on two workers; this one asks for the third shard. *)
Definition third_of_two : World :=
  world chain chain_recipes [] [] None (Exited 0 "") (Some 2%Z) (Some 2%Z).

(** No recipe matches the glob. *)
Definition no_recipes : World :=
  world chain [] [] [] None (Exited 0 "") None None.

(** Recipes match, but the graph built from them is empty. *)
Definition empty_dag : World :=
  world {| nx.nodes := []; nx.edges := [] |} chain_recipes [] [] None
    (Exited 0 "") None None.

(** The docker build of [recipes/a] leaves no package behind. *)
Definition no_package : World :=
  world chain chain_recipes [] [package_file "recipes/a"] None
    (Exited 0 "") None None.

Definition builder : RecipeBuilder :=
  {| image := None; requirements := None |}.

(** The position of a package of the chain in the chain. *)
Definition chain_rank (package : string) : nat :=
  if decide (package = "a") then 0
  else if decide (package = "b") then 1 else 2.

Definition chain_targets : gmap string (list Target) :=
  dict (map (λ recipe, (recipe, [target_of recipe])) chain_recipes).

(** [base] with other build programs and another mulled test. *)
Definition with_programs (base : World)
    (docker : RecipeBuilder → string → string → Env → call_result)
    (conda : list string → Env → call_result)
    (test : string → call_result) : World :=
  {| abspath := abspath base;
     relpath := relpath base;
     path_exists := path_exists base;
     SUBDAGS := SUBDAGS base;
     SUBDAG := SUBDAG base;
     TRAVIS_BRANCH := TRAVIS_BRANCH base;
     TRAVIS_PULL_REQUEST := TRAVIS_PULL_REQUEST base;
     ANACONDA_TOKEN := ANACONDA_TOKEN base;
     blacklist := blacklist base;
     get_recipes := get_recipes base;
     filter_recipes := filter_recipes base;
     get_dag := get_dag base;
     built_package_path := built_package_path base;
     build_recipe := docker;
     conda_build := conda;
     test_package := test;
     anaconda_upload := anaconda_upload base |}.

(** On master, every upload goes through, but the package of [b] is not
    on disk. *)
Definition on_master : World :=
  world chain chain_recipes [] [package_file "recipes/b"] (Some "master")
    (Exited 0 "") None None.

(** The chain with a shard index far below zero. *)
Definition below_range : World :=
  world chain chain_recipes [] [] None (Exited 0 "") None (Some (-2)%Z).

(** The chain with a shard count of zero. *)
Definition zero_shards : World :=
  world chain chain_recipes [] [] None (Exited 0 "") (Some 0%Z) None.

(** Two packages that depend on each other. *)
Definition cycle : nx.DiGraph :=
  {| nx.nodes := ["a"; "b"]; nx.edges := [("a", "b"); ("b", "a")] |}.

Definition cyclic : World :=
  world cycle ["recipes/a"; "recipes/b"] [] [] None (Exited 0 "") None None.

(** A worker without conda: the build command cannot be started. *)
Definition no_conda : World :=
  with_programs all_fine (build_recipe all_fine)
    (λ _ _, CannotRun (OSError "conda: No such file or directory"))
    (test_package all_fine).

(** Every build succeeds, every mulled test fails. *)
Definition tests_fail : World :=
  with_programs all_fine (build_recipe all_fine) (conda_build all_fine)
    (λ _, Exited 1 "test failed").

(** [c] depends on [a]; [b] stands alone and was added first. *)
Definition fork : nx.DiGraph :=
  {| nx.nodes := ["b"; "a"; "c"]; nx.edges := [("a", "c")] |}.

(** The same graph, enumerated in another order. *)
Definition fork_relisted : nx.DiGraph :=
  {| nx.nodes := ["c"; "a"; "b"]; nx.edges := [("a", "c"); ("a", "c")] |}.

(** Two runs over [fork]: in the first everything succeeds; the second is
    on master, the build of [b] fails and the package of [c] is missing. *)
Definition fork_fine : World :=
  world fork chain_recipes [] [] None (Exited 0 "") None None.

Definition fork_b_fails : World :=
  world fork chain_recipes ["recipes/b"] [package_file "recipes/c"]
    (Some "master") (Exited 0 "") None None.

End Examples.

(** * Theorems *)

(** ** The monad *)

Section monad_facts.
Context {A B : Type}.
Implicit Types (m : M A) (k : A → M B).

Lemma bind_ret_l (a : A) k : bind (ret a) k = k a.
Proof. unfold bind, ret. by destruct (k a). Qed.

Lemma bind_raise (e : exn) k : bind (raise e) k = raise e.
Proof. done. Qed.

Lemma bind_lift_returns (a : A) k : bind (lift (Returns a)) k = k a.
Proof. unfold bind, lift. by destruct (k a). Qed.

Lemma bind_lift_raises (e : exn) k : bind (lift (Raises e)) k = raise e.
Proof. done. Qed.

Lemma outcome_bind_returns m k b :
  outcome (bind m k) = Returns b →
  ∃ a, outcome m = Returns a ∧ outcome (k a) = Returns b.
Proof.
  destruct m as [t [a|e]]; simpl; [|done].
  destruct (k a) as [t' r] eqn:Hk. simpl. intros ->.
  exists a. by rewrite Hk.
Qed.

Lemma trace_bind_returns m k a :
  outcome m = Returns a → trace (bind m k) = trace m ++ trace (k a).
Proof.
  destruct m as [t r]; simpl. intros ->. simpl. by destruct (k a).
Qed.

Lemma outcome_bind m k a :
  outcome m = Returns a → outcome (bind m k) = outcome (k a).
Proof.
  destruct m as [t r]; simpl. intros ->. simpl. by destruct (k a).
Qed.

Lemma bind_raises m k e :
  outcome m = Raises e → bind m k = (trace m, Raises e).
Proof. destruct m as [t r]; simpl. by intros ->. Qed.
End monad_facts.

(** ** [build] *)

(** C9. With a docker builder that completes without raising, [build]
    returns [False] when the built package is not on disk afterwards, and
    the mulled test is not run: the docker build is the only call made. *)
Theorem build_docker_package_missing (w : World) (recipe : string) (env : Env)
    (testonly mulled_test : bool) (channels : list string)
    (builder : RecipeBuilder) :
  docker_run
    (build_recipe w builder (abspath w recipe)
       (String.concat " " (channel_args channels ++ build_args testonly)) env)
    = Returns tt →
  path_exists w (built_package_path w recipe env) = false →
  build w recipe env testonly mulled_test channels (Some builder)
    = ([build_call w recipe env testonly channels (Some builder)], Returns false)
  ∧ ∀ pkg_path,
      MulledTest pkg_path
        ∉ trace (build w recipe env testonly mulled_test channels (Some builder)).
Proof.
  intros Hrun Hmissing.
  assert (build w recipe env testonly mulled_test channels (Some builder)
          = ([build_call w recipe env testonly channels (Some builder)],
             Returns false)) as Heq.
  { unfold build. rewrite Hrun, Hmissing. reflexivity. }
  split; [exact Heq|].
  intros pkg_path. rewrite Heq. simpl.
  intros Hin. apply list_elem_of_singleton in Hin. discriminate Hin.
Qed.

Lemma build_docker_package_missing_witness :
  build Examples.no_package "recipes/a" [] false true ["bioconda"]
    (Some Examples.builder)
  = ([DockerBuild "/recipes/a" "--channel bioconda --no-anaconda-upload" []],
     Returns false)
  ∧ ∀ pkg_path,
      MulledTest pkg_path
        ∉ trace (build Examples.no_package "recipes/a" [] false true
                   ["bioconda"] (Some Examples.builder)).
Proof.
  apply (build_docker_package_missing Examples.no_package "recipes/a" []
           false true ["bioconda"] Examples.builder); reflexivity.
Defined.

(** ** The exits of [test_recipes] before any build *)

(** C10. When no recipe is left after the blacklist, [test_recipes]
    returns [None]; when recipes are left but the graph built from them is
    empty, it returns [True]. The two exits give different values. *)
Theorem nothing_to_be_done_exits (w1 w2 : World) (config : Config)
    (packages : Packages) (mulled_test testonly force docker : bool)
    (dag : nx.DiGraph) (name2recipes : Name2Recipes) :
  collect_recipes w1 packages = [] →
  collect_recipes w2 packages ≠ [] →
  get_dag w2
    (dict_keys (filter_recipes w2 (collect_recipes w2 packages)
                  (channels config) force))
    = Returns (dag, name2recipes) →
  nx.nodes dag = [] →
  test_recipes w1 config packages mulled_test testonly force docker
    = ([], Returns PyNone)
  ∧ test_recipes w2 config packages mulled_test testonly force docker
    = ([], Returns (PyBool true))
  ∧ outcome (test_recipes w1 config packages mulled_test testonly force docker)
    ≠ outcome (test_recipes w2 config packages mulled_test testonly force docker).
Proof.
  intros Hnone Hsome Hdag Hempty.
  assert (test_recipes w1 config packages mulled_test testonly force docker
          = ([], Returns PyNone)) as H1.
  { unfold test_recipes. rewrite decide_True by done. reflexivity. }
  assert (test_recipes w2 config packages mulled_test testonly force docker
          = ([], Returns (PyBool true))) as H2.
  { unfold test_recipes. rewrite decide_False by done.
    rewrite Hdag, bind_lift_returns. rewrite decide_True by done. reflexivity. }
  rewrite H1, H2. repeat split. simpl. discriminate.
Qed.

Lemma nothing_to_be_done_exits_witness :
  test_recipes Examples.no_recipes Examples.config (PackagesStr "*")
    true false false false = ([], Returns PyNone)
  ∧ test_recipes Examples.empty_dag Examples.config (PackagesStr "*")
      true false false false = ([], Returns (PyBool true))
  ∧ outcome (test_recipes Examples.no_recipes Examples.config
               (PackagesStr "*") true false false false)
    ≠ outcome (test_recipes Examples.empty_dag Examples.config
                 (PackagesStr "*") true false false false).
Proof.
  apply (nothing_to_be_done_exits Examples.no_recipes Examples.empty_dag
           Examples.config (PackagesStr "*") true false false false
           {| nx.nodes := []; nx.edges := [] |}
           (λ package, Returns [Examples.recipe_of package]));
    [reflexivity | discriminate | reflexivity | reflexivity].
Defined.

(** C8. When the requested shard index is at least the number of chunks,
    the run ends at once and returns [True]; nothing is built and nothing
    is raised. *)
Theorem shard_index_out_of_range (w : World) (config : Config)
    (packages : Packages) (mulled_test testonly force docker : bool)
    (dag : nx.DiGraph) (name2recipes : Name2Recipes) :
  collect_recipes w packages ≠ [] →
  get_dag w
    (dict_keys (filter_recipes w (collect_recipes w packages)
                  (channels config) force))
    = Returns (dag, name2recipes) →
  nx.nodes dag ≠ [] →
  (Z.of_nat (length (make_chunks (default 1 (SUBDAGS w))
                       (make_subdags testonly dag)))
   ≤ default 0 (SUBDAG w))%Z →
  test_recipes w config packages mulled_test testonly force docker
    = ([], Returns (PyBool true)).
Proof.
  intros Hsome Hdag Hnodes Hindex.
  unfold test_recipes. rewrite decide_False by done.
  rewrite Hdag, bind_lift_returns. rewrite decide_False by done.
  rewrite decide_True by done. reflexivity.
Qed.

Lemma shard_index_out_of_range_witness :
  test_recipes Examples.third_of_two Examples.config (PackagesStr "*")
    true false false false = ([], Returns (PyBool true)).
Proof.
  apply (shard_index_out_of_range Examples.third_of_two Examples.config
           (PackagesStr "*") true false false false Examples.chain
           (λ package, Returns [Examples.recipe_of package]));
    [discriminate | reflexivity | discriminate | vm_compute; discriminate].
Defined.

(** ** Runs that reach the end of the target list *)

(** C1. On the chain a -> b -> c with the build of [a] failing, the run
    still builds and tests [b] and [c]: nothing is skipped, and the run
    ends in the [NameError] of the report. *)
Theorem dependents_of_failed_are_built :
  test_recipes Examples.a_fails Examples.config (PackagesStr "*")
    true false false false
  = ([CondaBuild ["conda"; "build"; "recipes/a"] [("CONDA_PY", "35")];
      CondaBuild ["conda"; "build"; "recipes/b"] [("CONDA_PY", "35")];
      MulledTest "recipes/b.tar.bz2";
      CondaBuild ["conda"; "build"; "recipes/c"] [("CONDA_PY", "35")];
      MulledTest "recipes/c.tar.bz2"],
     Raises (NameError "failed")).
Proof. vm_compute. reflexivity. Qed.

(** C2. On the chain with every build and test succeeding, the run does
    not return a verdict: after the last target it raises [NameError],
    because [failed] is never bound. *)
Theorem all_success_run_raises :
  outcome (build_all Examples.all_fine Examples.config Examples.chain_targets
             Examples.chain_recipes true false None)
  = Returns true
  ∧ outcome (test_recipes Examples.all_fine Examples.config (PackagesStr "*")
               true false false false)
    = Raises (NameError "failed").
Proof. split; vm_compute; reflexivity. Qed.

(** The report raises, whatever was built. *)
Lemma report_raises : report = ([], Raises (NameError "failed")).
Proof. reflexivity. Qed.

(** So [test_recipes] only ever returns through one of its three early
    exits, before any collaborator was called. *)
Lemma test_recipes_returns_early (w : World) (config : Config)
    (packages : Packages) (mulled_test testonly force docker : bool)
    (v : value) :
  outcome (test_recipes w config packages mulled_test testonly force docker)
    = Returns v →
  test_recipes w config packages mulled_test testonly force docker
    = ([], Returns v)
  ∧ (v = PyNone ∨ v = PyBool true).
Proof.
  unfold test_recipes. case_decide; [intros [= <-]; auto|].
  destruct (get_dag w _) as [[dag name2recipes]|e];
    [rewrite bind_lift_returns|done].
  case_decide; [intros [= <-]; auto|].
  case_decide; [intros [= <-]; auto|].
  destruct (py_index _ _) as [chunk|e]; [rewrite bind_lift_returns|done].
  destruct (plan_packages dag chunk) as [order|e];
    [rewrite bind_lift_returns|done].
  intros Hout. exfalso.
  apply outcome_bind_returns in Hout as (recipes & _ & Hout).
  apply outcome_bind_returns in Hout as (success & _ & Hout).
  apply outcome_bind_returns in Hout as (u & Hreport & _).
  discriminate Hreport.
Qed.

(** C3. On the chain with every mulled test failing, the loop does go on
    to the remaining targets and ends with [success] false, but the run
    does not return it: a failed target lets the run end in the
    [NameError] of the report. *)
Theorem failed_tests_run_raises :
  build_all Examples.tests_fail Examples.config Examples.chain_targets
    Examples.chain_recipes true false None
  = ([CondaBuild ["conda"; "build"; "recipes/a"] [("CONDA_PY", "35")];
      MulledTest "recipes/a.tar.bz2";
      CondaBuild ["conda"; "build"; "recipes/b"] [("CONDA_PY", "35")];
      MulledTest "recipes/b.tar.bz2";
      CondaBuild ["conda"; "build"; "recipes/c"] [("CONDA_PY", "35")];
      MulledTest "recipes/c.tar.bz2"],
     Returns false)
  ∧ test_recipes Examples.tests_fail Examples.config (PackagesStr "*")
      true false false false
    = ([CondaBuild ["conda"; "build"; "recipes/a"] [("CONDA_PY", "35")];
        MulledTest "recipes/a.tar.bz2";
        CondaBuild ["conda"; "build"; "recipes/b"] [("CONDA_PY", "35")];
        MulledTest "recipes/b.tar.bz2";
        CondaBuild ["conda"; "build"; "recipes/c"] [("CONDA_PY", "35")];
        MulledTest "recipes/c.tar.bz2"],
       Raises (NameError "failed")).
Proof. split; vm_compute; reflexivity. Qed.

(** ** The build loop *)

Lemma build_spec (w : World) (recipe : string) (env : Env)
    (testonly mulled_test : bool) (channels : list string)
    (docker_builder : option RecipeBuilder) :
  programs_start w →
  outcome (build w recipe env testonly mulled_test channels docker_builder)
    = Returns (build_verdict w recipe env testonly mulled_test channels
                 docker_builder)
  ∧ filter is_build_call
      (trace (build w recipe env testonly mulled_test channels docker_builder))
    = [build_call w recipe env testonly channels docker_builder].
Proof.
  intros (Hdocker & Hconda & Htest).
  destruct (Htest (built_package_path w recipe env)) as (trc & tout & Ht).
  unfold build, build_verdict, build_call.
  destruct docker_builder as [builder|].
  - destruct (Hdocker builder (abspath w recipe)
                (String.concat " " (channel_args channels ++ build_args testonly))
                env) as (rc & out & ->).
    unfold docker_run, exit_ok.
    destruct (decide (rc = 0%Z)) as [->|Hrc].
    + destruct (path_exists w (built_package_path w recipe env));
        destruct mulled_test; simpl; rewrite ?Ht; simpl;
        rewrite ?andb_true_r; done.
    + rewrite bool_decide_eq_false_2 by done. done.
  - destruct (Hconda (CONDA_BUILD_CMD ++ [recipe]) env) as (rc & out & ->).
    unfold sp_run, exit_ok.
    destruct (decide (rc = 0%Z)) as [->|Hrc].
    + destruct mulled_test; simpl; rewrite ?Ht; simpl;
        rewrite ?andb_true_r; done.
    + rewrite bool_decide_eq_false_2 by done. done.
Qed.

Section build_loop.
Context (w : World) (config : Config) (mulled_test testonly : bool)
        (builder : option RecipeBuilder).
Hypothesis Hstart : programs_start w.

Local Notation "'verdict'" :=
  (target_verdict w config mulled_test testonly builder).
Local Notation "'call'" := (target_call w config testonly builder).
Local Notation "'body'" :=
  (build_step w config mulled_test testonly builder).

Lemma build_step_spec recipe target success :
  outcome (body recipe target success)
    = Returns (success && verdict (recipe, target))
  ∧ filter is_build_call (trace (body recipe target success))
    = [call (recipe, target)].
Proof.
  destruct (build_spec w recipe (env target) testonly mulled_test
              (channels config) builder Hstart) as [Hout Htr].
  unfold build_step, target_verdict, target_call. split.
  - by rewrite (outcome_bind _ _ _ Hout).
  - rewrite (trace_bind_returns _ _ _ Hout). simpl.
    by rewrite app_nil_r.
Qed.

Lemma build_targets_spec recipe targets success :
  outcome (for_each targets (body recipe) success)
    = Returns (success && forallb (λ t, verdict (recipe, t)) targets)
  ∧ filter is_build_call (trace (for_each targets (body recipe) success))
    = map (λ t, call (recipe, t)) targets.
Proof.
  revert success. induction targets as [|target targets IH]; intros success.
  - simpl. by rewrite andb_true_r.
  - destruct (build_step_spec recipe target success) as [Hout Htr].
    destruct (IH (success && verdict (recipe, target))) as [IHout IHtr].
    cbn [for_each forallb map]. split.
    + rewrite (outcome_bind _ _ _ Hout), IHout. by rewrite andb_assoc.
    + rewrite (trace_bind_returns _ _ _ Hout), filter_app, Htr, IHtr. done.
Qed.

Lemma build_recipes_spec (recipe_targets : gmap string (list Target))
    (recipes : list string) (success : bool) :
  (∀ recipe, recipe ∈ recipes → is_Some (recipe_targets !! recipe)) →
  let loop :=
    for_each recipes
      (λ recipe success,
         targets <- lift (subscript recipe_targets recipe) ;;
         for_each targets (body recipe) success)
      success in
  outcome loop
    = Returns (success && forallb verdict
                            (planned_targets recipe_targets recipes))
  ∧ filter is_build_call (trace loop)
    = map call (planned_targets recipe_targets recipes).
Proof.
  revert success.
  induction recipes as [|recipe recipes IH]; intros success Hdom.
  - simpl. by rewrite andb_true_r.
  - destruct (Hdom recipe) as [targets Htargets]; [by left|].
    destruct (build_targets_spec recipe targets success) as [Hout Htr].
    destruct (IH (success && forallb (λ t, verdict (recipe, t)) targets))
      as [IHout IHtr].
    { intros r Hr. apply Hdom. by right. }
    cbn [for_each]. unfold subscript at 1 3. rewrite Htargets.
    rewrite bind_lift_returns.
    unfold planned_targets in *. cbn [flat_map].
    rewrite Htargets. cbn [default]. unfold id. split.
    + rewrite (outcome_bind _ _ _ Hout), IHout.
      rewrite forallb_app, andb_assoc.
      assert (forallb verdict (map (λ target, (recipe, target)) targets)
              = forallb (λ t, verdict (recipe, t)) targets) as ->; [|done].
      clear. induction targets as [|t ts IHts]; [done|].
      simpl. by rewrite IHts.
    + rewrite (trace_bind_returns _ _ _ Hout), filter_app, Htr, IHtr.
      rewrite map_app, map_map. done.
Qed.

Lemma build_all_spec (recipe_targets : gmap string (list Target))
    (recipes : list string) :
  (∀ recipe, recipe ∈ recipes → is_Some (recipe_targets !! recipe)) →
  outcome (build_all w config recipe_targets recipes mulled_test testonly
             builder)
    = Returns (forallb verdict (planned_targets recipe_targets recipes))
  ∧ filter is_build_call
      (trace (build_all w config recipe_targets recipes mulled_test
                testonly builder))
    = map call (planned_targets recipe_targets recipes).
Proof.
  intros Hdom. exact (build_recipes_spec recipe_targets recipes true Hdom).
Qed.
End build_loop.

Lemma a_fails_programs_start : programs_start Examples.a_fails.
Proof.
  repeat split; intros; simpl; try case_decide; eauto.
Qed.

Lemma chain_recipes_have_targets (recipe : string) :
  recipe ∈ Examples.chain_recipes →
  is_Some (Examples.chain_targets !! recipe).
Proof.
  unfold Examples.chain_recipes. intros Hin.
  repeat (apply elem_of_cons in Hin as [->|Hin]);
    [vm_compute; eauto..|by apply elem_of_nil in Hin].
Qed.

(** ** Slices and chunks *)

Section slices.
Context {A : Type}.
Implicit Types (l : list A) (ls : list (list A)).

Lemma concat_cons_one (x : A) (P : nat → Prop) `{!∀ i, Decision (P i)}
    (f : nat → list A) (i0 : nat) (idxs : list nat) :
  NoDup idxs → i0 ∈ idxs → (∀ i, i ∈ idxs → P i ↔ i = i0) →
  concat (map (λ i, if decide (P i) then x :: f i else f i) idxs)
    ≡ₚ x :: concat (map f idxs).
Proof.
  induction idxs as [|i idxs IH]; intros Hnd Hin HP.
  - by apply elem_of_nil in Hin.
  - apply NoDup_cons in Hnd as [Hi Hnd]. cbn [map concat].
    destruct (decide (i = i0)) as [->|Hne].
    + rewrite decide_True by (apply HP; [by left|done]).
      assert (map (λ i, if decide (P i) then x :: f i else f i) idxs
              = map f idxs) as ->; [|done].
      apply map_ext_in. intros i Hi'.
      apply list_elem_of_In in Hi'.
      rewrite decide_False; [done|].
      intros HPi. apply HP in HPi; [|by right]. by subst.
    + rewrite decide_False by (intros HPi; apply HP in HPi; [done|by left]).
      rewrite IH; [|done| |].
      * by rewrite Permutation_middle.
      * apply elem_of_cons in Hin as [|]; [congruence|done].
      * intros j Hj. apply HP. by right.
Qed.

Lemma slice_class (n i j : nat) :
  i < n → (i ≤ j ∧ (j - i) `mod` n = 0) ↔ i = j `mod` n.
Proof.
  intros Hi. split.
  - intros [Hle Hmod].
    apply Nat.Div0.mod_divides in Hmod as [q Hq].
    replace j with (i + q * n) by lia.
    rewrite Nat.Div0.mod_add. by rewrite Nat.mod_small.
  - intros ->. split; [apply Nat.Div0.mod_le|].
    rewrite (Nat.div_mod_eq j n) at 1.
    replace (n * (j / n) + j `mod` n - j `mod` n) with ((j / n) * n) by lia.
    apply Nat.Div0.mod_mul.
Qed.

Lemma slices_cover (n j : nat) l :
  0 < n → concat (map (λ i, slice_go i n j l) (seq 0 n)) ≡ₚ l.
Proof.
  intros Hn. revert j. induction l as [|x l IH]; intros j.
  - cbn [slice_go]. induction (seq 0 n) as [|? ? IHs]; [done|exact IHs].
  - cbn [slice_go].
    rewrite (concat_cons_one x (λ i, i ≤ j ∧ (j - i) `mod` n = 0)
               (λ i, slice_go i n (S j) l) (j `mod` n)).
    + by rewrite IH.
    + apply NoDup_seq.
    + apply elem_of_seq. split; [lia|]. simpl.
      apply Nat.mod_upper_bound. lia.
    + intros i Hi. apply slice_class. apply elem_of_seq in Hi. lia.
Qed.
End slices.

Lemma make_chunks_concat (subdags_n : Z) (subdags : list (list string)) :
  (1 ≤ subdags_n)%Z →
  concat (make_chunks subdags_n subdags) ≡ₚ concat subdags.
Proof.
  intros Hn. unfold make_chunks. case_decide; [|done].
  unfold range, py_slice.
  transitivity
    (concat (concat (map (λ i, slice_go i (Z.to_nat subdags_n) 0 subdags)
                         (seq 0 (Z.to_nat subdags_n))))).
  - generalize (seq 0 (Z.to_nat subdags_n)) as idxs.
    induction idxs as [|i idxs IH]; [done|].
    cbn [map concat]. by rewrite concat_app, IH.
  - rewrite slices_cover by lia. done.
Qed.

(** ** Connected components *)

Section components.
Context (g : nx.DiGraph).
Hypothesis Hnodup : NoDup (nx.nodes g).
Implicit Types (comp seen todo : list string) (v x : string).

Lemma elem_of_fresh comp x :
  x ∈ nx.fresh g comp ↔
  (x ∉ comp) ∧ x ∈ nx.nodes g ∧ ∃ c, c ∈ comp ∧ nx.adjacent g c x.
Proof.
  unfold nx.fresh. rewrite list_elem_of_filter, Exists_exists.
  split.
  - intros [[Hx (c & Hc & Hadj)] Hn]. eauto.
  - intros (Hx & Hn & c & Hc & Hadj). eauto.
Qed.

Lemma fresh_nil_closed comp : nx.fresh g comp = [] ↔ closed g comp.
Proof.
  split.
  - intros Hnil a b Ha Hab Hb.
    destruct (decide (b ∈ comp)) as [|Hnb]; [done|].
    assert (b ∈ nx.fresh g comp) as Hin by (apply elem_of_fresh; eauto).
    rewrite Hnil in Hin. by apply elem_of_nil in Hin.
  - intros Hcl. destruct (nx.fresh g comp) as [|x l] eqn:Hf; [done|].
    assert (x ∈ nx.fresh g comp) as Hin by (rewrite Hf; by left).
    apply elem_of_fresh in Hin as (Hx & Hn & c & Hc & Hadj).
    destruct Hx. by apply (Hcl c).
Qed.

Lemma closure_closed k comp : closed g comp → nx.closure k g comp = comp.
Proof.
  intros Hcl. induction k as [|k IH]; [done|].
  cbn [nx.closure]. unfold nx.grow.
  apply fresh_nil_closed in Hcl as ->. by rewrite app_nil_r.
Qed.

Lemma closure_progress k comp :
  closed g (nx.closure k g comp)
  ∨ length comp + k ≤ length (nx.closure k g comp).
Proof.
  revert comp. induction k as [|k IH]; intros comp; [right; simpl; lia|].
  cbn [nx.closure]. destruct (nx.fresh g comp) as [|x l] eqn:Hf.
  - left. apply fresh_nil_closed in Hf.
    unfold nx.grow. apply fresh_nil_closed in Hf as Hf'.
    rewrite Hf', app_nil_r. by rewrite closure_closed.
  - destruct (IH (nx.grow g comp)) as [|Hlen]; [by left|right].
    assert (length (nx.grow g comp) = length comp + S (length l)) as Hgrow.
    { unfold nx.grow. by rewrite Hf, length_app. }
    lia.
Qed.

Lemma grow_inv (P : string → Prop) comp :
  (∀ x, x ∈ comp → P x) →
  (∀ c x, c ∈ comp → P c → x ∈ nx.nodes g → nx.adjacent g c x → P x) →
  ∀ x, x ∈ nx.grow g comp → P x.
Proof.
  intros Hcomp Hstep x. unfold nx.grow. rewrite elem_of_app, elem_of_fresh.
  intros [|(_ & Hn & c & Hc & Hadj)]; eauto.
Qed.

Lemma closure_incl k comp x : x ∈ comp → x ∈ nx.closure k g comp.
Proof.
  revert comp. induction k as [|k IH]; intros comp Hx; [done|].
  cbn [nx.closure]. apply IH. unfold nx.grow. apply elem_of_app. by left.
Qed.

Lemma closure_inv (P : string → Prop) k comp :
  (∀ x, x ∈ comp → P x) →
  (∀ c x, P c → x ∈ nx.nodes g → nx.adjacent g c x → P x) →
  ∀ x, x ∈ nx.closure k g comp → P x.
Proof.
  intros Hcomp Hstep. revert comp Hcomp.
  induction k as [|k IH]; intros comp Hcomp; [done|].
  cbn [nx.closure]. apply IH. apply grow_inv; eauto.
Qed.

Lemma closure_NoDup k comp :
  NoDup comp → NoDup (nx.closure k g comp).
Proof.
  revert comp. induction k as [|k IH]; intros comp Hnd; [done|].
  cbn [nx.closure]. apply IH. unfold nx.grow.
  apply NoDup_app. split_and!; [done| |by apply NoDup_filter].
  intros x Hx Hf. apply elem_of_fresh in Hf as [Hn _]. done.
Qed.

Lemma component_nodes v x :
  v ∈ nx.nodes g → x ∈ nx.component g v → x ∈ nx.nodes g.
Proof.
  intros Hv. apply (closure_inv (λ x, x ∈ nx.nodes g)); [|done].
  intros ? ->%list_elem_of_singleton. done.
Qed.

Lemma component_NoDup v : NoDup (nx.component g v).
Proof. apply closure_NoDup, NoDup_singleton. Qed.

Lemma component_self v : v ∈ nx.component g v.
Proof. apply closure_incl. by left. Qed.

Lemma component_closed v : v ∈ nx.nodes g → closed g (nx.component g v).
Proof.
  intros Hv. unfold nx.component.
  destruct (closure_progress (length (nx.nodes g)) [v]) as [|Hlen]; [done|].
  exfalso.
  assert (length (nx.component g v) ≤ length (nx.nodes g)) as Hle.
  { apply submseteq_length, NoDup_submseteq; [apply component_NoDup|].
    intros x. by apply component_nodes. }
  unfold nx.component in Hle. simpl in Hlen. lia.
Qed.

Lemma component_connected v x :
  v ∈ nx.nodes g → x ∈ nx.component g v → connected g v x.
Proof.
  intros Hv.
  apply (closure_inv (λ x, x ∈ nx.nodes g ∧ connected g v x)
           (length (nx.nodes g)) [v]).
  - intros ? ->%list_elem_of_singleton. split; [done|apply rtc_refl].
  - intros c y [Hc Hvc] Hy Hadj. split; [done|].
    eapply rtc_r; [exact Hvc|]. done.
Qed.

Lemma closed_connected comp a b :
  closed g comp → a ∈ comp → connected g a b → b ∈ comp.
Proof.
  intros Hcl Ha Hab. induction Hab as [|a b c (Hadj & _ & Hb) _ IH]; [done|].
  apply IH. by apply (Hcl a).
Qed.

Lemma elem_of_component v x :
  v ∈ nx.nodes g → x ∈ nx.component g v ↔ connected g v x.
Proof.
  intros Hv. split; [by apply component_connected|].
  apply closed_connected; [by apply component_closed|apply component_self].
Qed.
End components.

(** ** The components partition the nodes *)

Section partition.
Context (g : nx.DiGraph).
Hypothesis Hnodup : NoDup (nx.nodes g).
Hypothesis Hsym : ∀ a b, nx.adjacent g a b → nx.adjacent g b a.

Lemma connected_sym a b : connected g a b → connected g b a.
Proof.
  intros Hab. induction Hab as [|a b c (Hadj & Ha & Hb) _ IH]; [apply rtc_refl|].
  eapply rtc_r; [exact IH|]. split_and!; auto.
Qed.

Lemma component_fresh v seen x :
  v ∈ nx.nodes g → closed g seen → v ∉ seen →
  x ∈ nx.component g v → x ∉ seen.
Proof.
  intros Hv Hcl Hnv Hx Hseen. apply Hnv.
  apply (closed_connected g seen x v); [done..|].
  apply connected_sym. by apply component_connected.
Qed.

Lemma closed_app comp1 comp2 :
  closed g comp1 → closed g comp2 → closed g (comp1 ++ comp2).
Proof.
  intros H1 H2 a b Ha Hadj Hb. apply elem_of_app.
  apply elem_of_app in Ha as [Ha|Ha]; [left; by eapply H1|right; by eapply H2].
Qed.

Lemma components_go_spec todo seen :
  (∀ x, x ∈ todo → x ∈ nx.nodes g) →
  closed g seen →
  NoDup (concat (nx.components_go g todo seen))
  ∧ (∀ x, x ∈ concat (nx.components_go g todo seen) →
          (x ∉ seen) ∧ x ∈ nx.nodes g)
  ∧ (∀ x, x ∈ todo →
          x ∈ seen ∨ x ∈ concat (nx.components_go g todo seen))
  ∧ Forall (λ c, ∃ v, v ∈ todo ∧ c = nx.component g v)
           (nx.components_go g todo seen).
Proof.
  revert seen. induction todo as [|v todo IH]; intros seen Htodo Hcl.
  - simpl. split_and!; [constructor| | |constructor].
    + intros x Hx. by apply elem_of_nil in Hx.
    + intros x Hx. by apply elem_of_nil in Hx.
  - assert (v ∈ nx.nodes g) as Hv by (apply Htodo; by left).
    assert (∀ x, x ∈ todo → x ∈ nx.nodes g) as Htodo'
      by (intros x Hx; apply Htodo; by right).
    cbn [nx.components_go]. destruct (decide (v ∈ seen)) as [Hseen|Hseen].
    + destruct (IH seen Htodo' Hcl) as (Hnd & Hout & Hcov & Hall).
      split_and!; [done|done| |].
      * intros x [->|Hx]%elem_of_cons; [by left|by apply Hcov].
      * eapply Forall_impl; [exact Hall|].
        intros c (u & Hu & ->). exists u. split; [by right|done].
    + destruct (IH (nx.component g v ++ seen) Htodo') as (Hnd & Hout & Hcov & Hall).
      { apply closed_app; [by apply component_closed|done]. }
      cbn [concat]. split_and!.
      * apply NoDup_app. split_and!; [by apply component_NoDup| |done].
        intros x Hx Hx'. apply Hout in Hx' as [Hx' _]. apply Hx'.
        apply elem_of_app. by left.
      * intros x [Hx|Hx]%elem_of_app.
        -- split; [by eapply component_fresh|by eapply component_nodes].
        -- apply Hout in Hx as [Hx Hn]. split; [|done].
           intros Hs. apply Hx, elem_of_app. by right.
      * intros x [->|Hx]%elem_of_cons.
        -- right. apply elem_of_app. left. apply component_self.
        -- destruct (Hcov x Hx) as [[Hc|Hs]%elem_of_app|Hc].
           ++ right. apply elem_of_app. by left.
           ++ by left.
           ++ right. apply elem_of_app. by right.
      * constructor; [exists v; split; [by left|done]|].
        eapply Forall_impl; [exact Hall|].
        intros c (u & Hu & ->). exists u. split; [by right|done].
Qed.

Lemma connected_components_spec :
  concat (nx.connected_components g) ≡ₚ nx.nodes g
  ∧ Forall (λ c, ∃ v, v ∈ nx.nodes g ∧ c = nx.component g v)
           (nx.connected_components g).
Proof.
  destruct (components_go_spec (nx.nodes g) []) as (Hnd & Hout & Hcov & Hall).
  { done. }
  { intros a b Ha. by apply elem_of_nil in Ha. }
  split; [|exact Hall].
  apply NoDup_Permutation; [done..|].
  intros x. split; [by intros [_ ?]%Hout|].
  intros [Hx|Hx]%Hcov; [by apply elem_of_nil in Hx|done].
Qed.
End partition.

Lemma to_undirected_sym (dag : nx.DiGraph) (a b : string) :
  nx.adjacent (nx.to_undirected dag) a b →
  nx.adjacent (nx.to_undirected dag) b a.
Proof.
  unfold nx.adjacent, nx.to_undirected. simpl.
  rewrite !bool_decide_spec, !elem_of_app, !list_elem_of_fmap.
  intros [H|((x & y) & [= -> ->] & H)]; simpl in *.
  - right. by exists (a, b).
  - by left.
Qed.

Lemma concat_sorted_names (cs : list (list string)) :
  concat (map sorted_names cs) ≡ₚ concat cs.
Proof.
  induction cs as [|c cs IH]; [done|].
  cbn [map concat]. unfold sorted_names at 1.
  by rewrite merge_sort_Permutation, IH.
Qed.

Lemma make_subdags_concat (testonly : bool) (dag : nx.DiGraph) :
  NoDup (nx.nodes dag) →
  concat (make_subdags testonly dag) ≡ₚ nx.nodes dag.
Proof.
  intros Hnd. unfold make_subdags, sorted_lists. destruct testonly.
  - rewrite merge_sort_Permutation.
    induction (nx.nodes dag) as [|n ns IH]; [done|].
    apply NoDup_cons in Hnd as [_ Hnd]. cbn [map concat app]. by rewrite IH.
  - rewrite merge_sort_Permutation, concat_sorted_names.
    apply (connected_components_spec (nx.to_undirected dag)); [done|].
    apply to_undirected_sym.
Qed.

Lemma elem_of_concat {A} (ls : list (list A)) (x : A) :
  x ∈ concat ls ↔ ∃ l, l ∈ ls ∧ x ∈ l.
Proof.
  induction ls as [|l ls IH]; cbn [concat].
  - split; [by intros ?%elem_of_nil|by intros (l & ?%elem_of_nil & _)].
  - rewrite elem_of_app, IH. split.
    + intros [Hx|(l' & Hl' & Hx)]; [exists l|exists l'];
        (split; [|done]); [by left|by right].
    + intros (l' & [->|Hl']%elem_of_cons & Hx); [by left|right; eauto].
Qed.

Lemma NoDup_concat_lookup {A} (ls : list (list A)) (i j : nat)
    (a b : list A) (x : A) :
  NoDup (concat ls) → ls !! i = Some a → ls !! j = Some b →
  x ∈ a → x ∈ b → i = j.
Proof.
  revert i j. induction ls as [|l ls IH]; intros i j Hnd Hi Hj Ha Hb; [done|].
  cbn [concat] in Hnd. apply NoDup_app in Hnd as (_ & Hdisj & Hnd).
  destruct i as [|i], j as [|j]; simplify_eq/=; [done| | |f_equal; eauto].
  - exfalso. apply (Hdisj x Ha). apply elem_of_concat. exists b.
    split; [|done]. by eapply list_elem_of_lookup_2.
  - exfalso. apply (Hdisj x Hb). apply elem_of_concat. exists a.
    split; [|done]. by eapply list_elem_of_lookup_2.
Qed.

Lemma chunks_concat_nodes (dag : nx.DiGraph) (testonly : bool)
    (subdags_n : Z) :
  NoDup (nx.nodes dag) →
  (1 ≤ subdags_n)%Z →
  concat (make_chunks subdags_n (make_subdags testonly dag)) ≡ₚ nx.nodes dag.
Proof.
  intros Hnd Hn. by rewrite make_chunks_concat, make_subdags_concat.
Qed.

(** C4. For a graph without repeated nodes and a shard count of at least
    1, the chunks hold every node exactly once: their concatenation is a
    rearrangement of the node list, their union is the node set, and two
    different chunks share no node. *)
Theorem chunks_partition_nodes (dag : nx.DiGraph) (testonly : bool)
    (subdags_n : Z) :
  NoDup (nx.nodes dag) →
  (1 ≤ subdags_n)%Z →
  concat (make_chunks subdags_n (make_subdags testonly dag)) ≡ₚ nx.nodes dag
  ∧ (∀ n, n ∈ nx.nodes dag ↔
          ∃ chunk, chunk ∈ make_chunks subdags_n (make_subdags testonly dag)
                   ∧ n ∈ chunk)
  ∧ (∀ i j chunk_i chunk_j n,
       make_chunks subdags_n (make_subdags testonly dag) !! i = Some chunk_i →
       make_chunks subdags_n (make_subdags testonly dag) !! j = Some chunk_j →
       n ∈ chunk_i → n ∈ chunk_j → i = j).
Proof.
  intros Hnd Hn.
  pose proof (chunks_concat_nodes dag testonly subdags_n Hnd Hn) as Hperm.
  split_and!; [done| |].
  - intros n. rewrite <- Hperm, elem_of_concat. done.
  - intros i j ci cj n. apply NoDup_concat_lookup. by rewrite Hperm.
Qed.

Lemma chunks_partition_nodes_witness :
  concat (make_chunks 2 (make_subdags true Examples.chain))
    ≡ₚ nx.nodes Examples.chain
  ∧ (∀ n, n ∈ nx.nodes Examples.chain ↔
          ∃ chunk, chunk ∈ make_chunks 2 (make_subdags true Examples.chain)
                   ∧ n ∈ chunk)
  ∧ (∀ i j chunk_i chunk_j n,
       make_chunks 2 (make_subdags true Examples.chain) !! i = Some chunk_i →
       make_chunks 2 (make_subdags true Examples.chain) !! j = Some chunk_j →
       n ∈ chunk_i → n ∈ chunk_j → i = j).
Proof.
  apply (chunks_partition_nodes Examples.chain true 2).
  - apply (bool_decide_unpack _). vm_compute. exact I.
  - lia.
Defined.

(** ** Topological sort *)

Lemma precedes_cons_head (n b : string) (order : list string) :
  b ∈ order → precedes (n :: order) n b.
Proof.
  intros (j & Hj)%list_elem_of_lookup_1. exists 0, (S j).
  split_and!; [done..|lia].
Qed.

Lemma precedes_cons (n a b : string) (order : list string) :
  precedes order a b → precedes (n :: order) a b.
Proof.
  intros (i & j & Hi & Hj & Hlt). exists (S i), (S j).
  split_and!; [done..|lia].
Qed.

Lemma remove_Permutation (n : string) (l : list string) :
  NoDup l → n ∈ l → n :: filter (λ m, m ≠ n) l ≡ₚ l.
Proof.
  intros Hnd Hn. apply NoDup_Permutation; [|done|].
  - apply NoDup_cons. split; [|by apply NoDup_filter].
    rewrite list_elem_of_filter. by intros [? _].
  - intros x. rewrite elem_of_cons, list_elem_of_filter.
    destruct (decide (x = n)) as [->|Hne].
    + split; [done|by left].
    + split; [intros [?|[_ ?]]; [by subst|done]|].
      intros Hx. right. by split.
Qed.

Lemma Sorted_weaken {A} (R1 R2 : relation A) (l : list A) :
  (∀ a b, R1 a b → R2 a b) → Sorted R1 l → Sorted R2 l.
Proof.
  intros Hsub. induction 1 as [|x l _ IH Hhd]; constructor; [done|].
  destruct Hhd; constructor; auto.
Qed.

Lemma topo_go_step (es : list (string * string)) (fuel : nat)
    (rem : list string) :
  rem ≠ [] →
  nx.topo_go (S fuel) es rem
  = match list_find (λ n, ¬ nx.has_pred es rem n) rem with
    | None => Raises NetworkXUnfeasible
    | Some (_, n) =>
        match nx.topo_go fuel es (filter (λ m, m ≠ n) rem) with
        | Returns order => Returns (n :: order)
        | Raises e => Raises e
        end
    end.
Proof. by destruct rem. Qed.

Section kahn.
Context (es : list (string * string)).

Lemma has_pred_edge rem a b :
  (a, b) ∈ es → a ∈ rem → nx.has_pred es rem b.
Proof.
  intros Hab Ha. apply Exists_exists. exists (a, b). by split_and!.
Qed.

Lemma has_pred_inv rem n :
  nx.has_pred es rem n → ∃ m, m ∈ rem ∧ (m, n) ∈ es.
Proof.
  intros ([m n'] & He & Hn & Hm)%Exists_exists. simpl in *. subst. eauto.
Qed.

Lemma topo_go_sound fuel rem order :
  NoDup rem →
  nx.topo_go fuel es rem = Returns order →
  order ≡ₚ rem
  ∧ ∀ a b, (a, b) ∈ es → a ∈ rem → b ∈ rem → precedes order a b.
Proof.
  revert rem order. induction fuel as [|fuel IH]; intros rem order Hnd Hgo.
  - destruct rem; simplify_eq/=. split; [done|].
    intros a b _ Ha. by apply elem_of_nil in Ha.
  - destruct (decide (rem = [])) as [->|Hne].
    { simplify_eq/=. split; [done|].
      intros a b _ Ha. by apply elem_of_nil in Ha. }
    rewrite topo_go_step in Hgo by done.
    destruct (list_find _ rem) as [[i n]|] eqn:Hfind; [|done].
    apply list_find_Some in Hfind as (Hi & Hsrc & _).
    assert (n ∈ rem) as Hn by (by eapply list_elem_of_lookup_2).
    destruct (nx.topo_go fuel es (filter (λ m, m ≠ n) rem)) as [order'|]
      eqn:Hrec; [|done].
    injection Hgo as <-.
    apply IH in Hrec as [Hperm Hord]; [|by apply NoDup_filter].
    split.
    + rewrite Hperm. by apply remove_Permutation.
    + intros a b Hab Ha Hb.
      destruct (decide (b = n)) as [->|Hbn].
      { destruct Hsrc. by eapply has_pred_edge. }
      destruct (decide (a = n)) as [->|Han].
      * apply precedes_cons_head. rewrite Hperm.
        apply list_elem_of_filter. by split.
      * apply precedes_cons, Hord; [done|..];
          apply list_elem_of_filter; by split.
Qed.

Lemma duplicate_or_NoDup (l : list string) :
  NoDup l ∨ ∃ x l1 l2 l3, l = l1 ++ x :: l2 ++ x :: l3.
Proof.
  induction l as [|x l IH]; [left; constructor|].
  destruct (decide (x ∈ l)) as [Hx|Hx].
  - right. apply list_elem_of_split in Hx as (l2 & l3 & ->).
    by exists x, [], l2, l3.
  - destruct IH as [Hnd|(y & l1 & l2 & l3 & ->)].
    + left. by constructor.
    + right. by exists y, (x :: l1), l2, l3.
Qed.

Lemma chain_cycle (l : list string) :
  Sorted (λ a b, (a, b) ∈ es) l →
  (∃ x l1 l2 l3, l = l1 ++ x :: l2 ++ x :: l3) →
  ∃ x, tc (λ a b, (a, b) ∈ es) x x.
Proof.
  intros Hchain (x & l1 & l2 & l3 & ->). exists x.
  assert (StronglySorted (tc (λ a b, (a, b) ∈ es))
            (l1 ++ x :: l2 ++ x :: l3)) as Hss.
  { apply Sorted_StronglySorted; [apply _|].
    eapply Sorted_weaken; [|exact Hchain]. intros a b. apply tc_once. }
  apply StronglySorted_app_1_r in Hss.
  apply StronglySorted_cons in Hss as [Hall _].
  rewrite Forall_forall in Hall. apply Hall.
  apply elem_of_app. right. by left.
Qed.

Lemma long_chain rem k n :
  n ∈ rem →
  (∀ n, n ∈ rem → nx.has_pred es rem n) →
  ∃ l, length l = S k ∧ (∀ x, x ∈ l → x ∈ rem)
       ∧ Sorted (λ a b, (a, b) ∈ es) l.
Proof.
  intros Hn Hpred. induction k as [|k (l & Hlen & Hin & Hchain)].
  - exists [n]. split_and!; [done| |repeat constructor].
    by intros x ->%list_elem_of_singleton.
  - destruct l as [|h t]; [done|].
    destruct (has_pred_inv rem h) as (m & Hm & Hmh).
    { apply Hpred, Hin. by left. }
    exists (m :: h :: t). split_and!.
    + simpl in *. lia.
    + intros x [->|Hx]%elem_of_cons; [done|by apply Hin].
    + constructor; [done|]. by constructor.
Qed.

Lemma exists_source rem :
  (∀ a, ¬ tc (λ a b, (a, b) ∈ es) a a) →
  rem ≠ [] →
  ∃ i n, list_find (λ n, ¬ nx.has_pred es rem n) rem = Some (i, n).
Proof.
  intros Hacyc Hne.
  destruct (list_find _ rem) as [[i n]|] eqn:Hfind; [eauto|exfalso].
  apply list_find_None in Hfind. rewrite Forall_forall in Hfind.
  destruct rem as [|r rem']; [done|].
  set (rem := r :: rem') in *.
  destruct (long_chain rem (length rem) r) as (l & Hlen & Hin & Hchain).
  { by left. }
  { intros n Hn. by apply dec_stable, Hfind. }
  destruct (duplicate_or_NoDup l) as [Hnd|Hdup].
  - assert (length l ≤ length rem); [|lia].
    by apply submseteq_length, NoDup_submseteq.
  - destruct (chain_cycle l Hchain Hdup) as [x Hx]. by apply (Hacyc x).
Qed.

Lemma topo_go_complete fuel rem :
  (∀ a, ¬ tc (λ a b, (a, b) ∈ es) a a) →
  length rem ≤ fuel →
  ∃ order, nx.topo_go fuel es rem = Returns order.
Proof.
  intros Hacyc. revert rem. induction fuel as [|fuel IH]; intros rem Hlen.
  - destruct rem; [by exists []|simpl in Hlen; lia].
  - destruct (decide (rem = [])) as [->|Hne]; [by exists []|].
    destruct (exists_source rem Hacyc) as (i & n & Hfind); [done|].
    assert (n ∈ rem) as Hn.
    { apply list_find_Some in Hfind as (Hi & _).
      by eapply list_elem_of_lookup_2. }
    destruct (IH (filter (λ m, m ≠ n) rem)) as [order Hrec].
    { assert (length (filter (λ m, m ≠ n) rem) < length rem); [|lia].
      eapply length_filter_lt; [exact Hn|]. by intros []. }
    exists (n :: order). by rewrite topo_go_step, Hfind, Hrec.
Qed.
End kahn.

(** ** The planned order *)

Lemma subgraph_acyclic (dag : nx.DiGraph) (bunch : list string) :
  acyclic dag →
  ∀ a, ¬ tc (λ a b, (a, b) ∈ nx.edges (nx.subgraph dag bunch)) a a.
Proof.
  intros Hacyc a Ha. apply (Hacyc a).
  eapply (tc_congruence id); [|exact Ha].
  intros x y Hxy. simpl in Hxy. apply list_elem_of_filter in Hxy as [_ Hxy].
  exact Hxy.
Qed.

Lemma ranked_acyclic (g : nx.DiGraph) (rank : string → nat) :
  (∀ a b, edge g a b → rank a < rank b) → acyclic g.
Proof.
  intros Hrank a Ha.
  assert (∀ x y, tc (edge g) x y → rank x < rank y) as Hlt.
  { intros x y Hxy. induction Hxy as [x y Hxy|x y z Hxy _ IH].
    - by apply Hrank.
    - apply Hrank in Hxy. lia. }
  apply Hlt in Ha. lia.
Qed.

Lemma py_index_elem_of {A} (l : list A) (i : Z) (x : A) :
  py_index l i = Returns x → x ∈ l.
Proof.
  unfold py_index. case_decide; [|done].
  destruct (l !! _) eqn:Hl; [|done]. intros [= <-].
  by eapply list_elem_of_lookup_2.
Qed.

Lemma make_chunks_nonpos (subdags_n : Z) (subdags : list (list string)) :
  (subdags_n ≤ 0)%Z → make_chunks subdags_n subdags = [].
Proof.
  intros Hn. unfold make_chunks, range. case_decide as Hlen.
  - replace (Z.to_nat subdags_n) with 0 by lia. done.
  - destruct subdags; [done|]. simpl in Hlen. lia.
Qed.

Lemma chunk_of_nodes (dag : nx.DiGraph) (testonly : bool) (subdags_n : Z)
    (chunk : list string) :
  NoDup (nx.nodes dag) →
  chunk ∈ make_chunks subdags_n (make_subdags testonly dag) →
  NoDup chunk ∧ ∀ p, p ∈ chunk → p ∈ nx.nodes dag.
Proof.
  intros Hnd Hchunk.
  destruct (decide (subdags_n ≤ 0)%Z) as [Hn|Hn].
  { rewrite make_chunks_nonpos in Hchunk by done.
    by apply elem_of_nil in Hchunk. }
  assert (concat (make_chunks subdags_n (make_subdags testonly dag))
          ≡ₚ nx.nodes dag) as Hperm
    by (apply chunks_concat_nodes; [done|lia]).
  apply list_elem_of_split in Hchunk as (l1 & l2 & Heq).
  rewrite Heq, concat_app in Hperm. cbn [concat] in Hperm.
  assert (NoDup (concat l1 ++ chunk ++ concat l2)) as Hnd'
    by (by rewrite Hperm).
  apply NoDup_app in Hnd' as (_ & _ & Hnd').
  apply NoDup_app in Hnd' as (Hnd' & _ & _).
  split; [done|]. intros p Hp. rewrite <- Hperm.
  rewrite !elem_of_app. auto.
Qed.

Lemma plan_recipes_go (name2recipes : Name2Recipes) (order acc : list string) :
  (∀ p, p ∈ order → ∃ rs, name2recipes p = Returns rs) →
  for_each order
    (λ package acc, rs <- lift (name2recipes package) ;; ret (acc ++ rs)) acc
  = ([], Returns (acc ++ flat_map (recipes_of name2recipes) order)).
Proof.
  revert acc. induction order as [|p order IH]; intros acc Hdef.
  - simpl. by rewrite app_nil_r.
  - destruct (Hdef p) as [rs Hrs]; [by left|].
    cbn [for_each flat_map]. unfold recipes_of at 1. rewrite Hrs.
    rewrite bind_lift_returns, bind_ret_l, IH.
    + by rewrite app_assoc.
    + intros q Hq. apply Hdef. by right.
Qed.

Lemma precedes_split (order : list string) (a b : string) :
  precedes order a b → ∃ l1 l2 l3, order = l1 ++ a :: l2 ++ b :: l3.
Proof.
  intros (i & j & Hi & Hj & Hlt).
  exists (take i order).
  rewrite <- (take_drop_middle order i a Hi) in Hj.
  rewrite lookup_app_r in Hj by (rewrite length_take; lia).
  rewrite length_take in Hj.
  apply lookup_lt_Some in Hi as Hi'.
  replace (j - i `min` length order) with (S (j - S i)) in Hj by lia.
  simpl in Hj. apply list_elem_of_split_length in Hj as (l2 & l3 & Heq & _).
  exists l2, l3. rewrite <- Heq. by rewrite take_drop_middle.
Qed.

(** C5. For a well-formed graph without cycles and the chunk selected by
    the shard index, the topological sort of the chunk's subgraph
    succeeds; the order holds exactly the packages of the chunk, and for
    every edge a -> b between two packages of the chunk, [a] comes before
    [b] in it. The recipes are built package by package in this order, so
    all recipes of [a] come before all recipes of [b]. *)
Theorem planned_order_is_topological (dag : nx.DiGraph)
    (name2recipes : Name2Recipes) (testonly : bool) (subdags_n subdag_i : Z)
    (chunk : list string) :
  well_formed dag →
  acyclic dag →
  py_index (make_chunks subdags_n (make_subdags testonly dag)) subdag_i
    = Returns chunk →
  (∀ p, p ∈ chunk → ∃ recipes, name2recipes p = Returns recipes) →
  ∃ order,
    plan_packages dag chunk = Returns order
    ∧ order ≡ₚ chunk
    ∧ (∀ a b, edge dag a b → a ∈ chunk → b ∈ chunk → precedes order a b)
    ∧ plan_recipes name2recipes order
      = ([], Returns (flat_map (recipes_of name2recipes) order))
    ∧ (∀ a b, edge dag a b → a ∈ chunk → b ∈ chunk →
         ∃ l1 l2 l3,
           flat_map (recipes_of name2recipes) order
           = l1 ++ recipes_of name2recipes a ++ l2
                ++ recipes_of name2recipes b ++ l3).
Proof.
  intros [Hnd Hwf] Hacyc Hchunk Hdef.
  apply py_index_elem_of in Hchunk.
  destruct (chunk_of_nodes dag testonly subdags_n chunk Hnd Hchunk)
    as [Hcnd Hcin].
  assert (NoDup (nx.nodes (nx.subgraph dag chunk))) as Hsnd
    by (by apply NoDup_filter).
  assert (nx.nodes (nx.subgraph dag chunk) ≡ₚ chunk) as Hsub.
  { apply NoDup_Permutation; [done..|]. intros p. simpl.
    rewrite list_elem_of_filter. split; [by intros []|auto]. }
  destruct (topo_go_complete (nx.edges (nx.subgraph dag chunk))
              (length (nx.nodes (nx.subgraph dag chunk)))
              (nx.nodes (nx.subgraph dag chunk)))
    as [order Horder]; [by apply subgraph_acyclic|done|].
  destruct (topo_go_sound _ _ _ _ Hsnd Horder) as [Hperm Hprec].
  assert (∀ a b, edge dag a b → a ∈ chunk → b ∈ chunk → precedes order a b)
    as Hedges.
  { intros a b Hab Ha Hb. apply Hprec.
    - simpl. apply list_elem_of_filter. by split.
    - by rewrite Hsub.
    - by rewrite Hsub. }
  exists order. split_and!; [done|by rewrite Hperm|done| |].
  - apply (plan_recipes_go name2recipes order []).
    intros p Hp. apply Hdef. by rewrite <- Hsub, <- Hperm.
  - intros a b Hab Ha Hb.
    destruct (precedes_split order a b (Hedges a b Hab Ha Hb))
      as (o1 & o2 & o3 & ->).
    exists (flat_map (recipes_of name2recipes) o1),
           (flat_map (recipes_of name2recipes) o2),
           (flat_map (recipes_of name2recipes) o3).
    rewrite flat_map_app. cbn [flat_map]. rewrite flat_map_app.
    cbn [flat_map]. done.
Qed.

Lemma chain_well_formed : well_formed Examples.chain.
Proof.
  split; [apply (bool_decide_unpack _); vm_compute; exact I|].
  intros a b Hab. unfold edge, Examples.chain in Hab. simpl in *.
  repeat (apply elem_of_cons in Hab as [[= -> ->]|Hab]);
    [split; apply (bool_decide_unpack _); vm_compute; exact I..|].
  by apply elem_of_nil in Hab.
Qed.

Lemma chain_acyclic : acyclic Examples.chain.
Proof.
  apply (ranked_acyclic _ Examples.chain_rank).
  intros a b Hab. unfold edge, Examples.chain in Hab. simpl in Hab.
  repeat (apply elem_of_cons in Hab as [[= -> ->]|Hab]);
    [vm_compute; lia..|].
  by apply elem_of_nil in Hab.
Qed.

Lemma planned_order_is_topological_witness :
  ∃ order,
    plan_packages Examples.chain ["a"; "b"; "c"] = Returns order
    ∧ order ≡ₚ ["a"; "b"; "c"]
    ∧ (∀ a b, edge Examples.chain a b → a ∈ ["a"; "b"; "c"] →
              b ∈ ["a"; "b"; "c"] → precedes order a b)
    ∧ plan_recipes (λ p, Returns [Examples.recipe_of p]) order
      = ([], Returns (flat_map
                        (recipes_of (λ p, Returns [Examples.recipe_of p]))
                        order))
    ∧ (∀ a b, edge Examples.chain a b → a ∈ ["a"; "b"; "c"] →
              b ∈ ["a"; "b"; "c"] →
         ∃ l1 l2 l3,
           flat_map (recipes_of (λ p, Returns [Examples.recipe_of p])) order
           = l1 ++ recipes_of (λ p, Returns [Examples.recipe_of p]) a ++ l2
                ++ recipes_of (λ p, Returns [Examples.recipe_of p]) b ++ l3).
Proof.
  apply (planned_order_is_topological Examples.chain
           (λ p, Returns [Examples.recipe_of p]) false 1 0 ["a"; "b"; "c"]).
  - exact chain_well_formed.
  - exact chain_acyclic.
  - vm_compute. reflexivity.
  - intros p _. eauto.
Defined.

(** ** [sorted] gives one answer per set of items *)

Lemma compare_refl (s : string) : String.compare s s = Eq.
Proof.
  induction s as [|c s IH]; [done|]. simpl.
  unfold Ascii.compare. by rewrite N.compare_refl.
Qed.

Lemma compare_lt_gt (s1 s2 : string) :
  String.compare s1 s2 = Lt ↔ String.compare s2 s1 = Gt.
Proof.
  rewrite (String.compare_antisym s2 s1).
  destruct (String.compare s1 s2); simpl; split; congruence.
Qed.

Lemma compare_lt_trans (s1 s2 s3 : string) :
  String.compare s1 s2 = Lt → String.compare s2 s3 = Lt →
  String.compare s1 s3 = Lt.
Proof.
  intros H12 H23.
  assert (String.le s1 s3) as H13.
  { transitivity s2; unfold String.le, String.leb.
    - by rewrite H12.
    - by rewrite H23. }
  unfold String.le, String.leb in H13.
  destruct (String.compare s1 s3) eqn:Hc; [|done|done].
  apply String.compare_eq_iff in Hc as ->.
  apply compare_lt_gt in H12. congruence.
Qed.

#[global] Instance list_le_total : Total list_le.
Proof.
  intros l1. unfold list_le.
  induction l1 as [|x l1 IH]; intros [|y l2]; simpl; auto.
  rewrite (String.compare_antisym y x).
  destruct (String.compare x y); simpl; auto.
Qed.

#[global] Instance list_le_trans : Transitive list_le.
Proof.
  intros l1. unfold list_le.
  induction l1 as [|x l1 IH]; intros [|y l2] [|z l3]; simpl; try done.
  destruct (String.compare x y) eqn:Hxy; [| |done].
  - apply String.compare_eq_iff in Hxy as ->.
    destruct (String.compare y z); [apply IH|done..].
  - intros _. destruct (String.compare y z) eqn:Hyz; [| |done].
    + apply String.compare_eq_iff in Hyz as <-. by rewrite Hxy.
    + by rewrite (compare_lt_trans x y z).
Qed.

#[global] Instance list_le_antisym : AntiSymm (=) list_le.
Proof.
  intros l1. unfold list_le.
  induction l1 as [|x l1 IH]; intros [|y l2]; simpl; try done.
  rewrite (String.compare_antisym y x).
  destruct (String.compare x y) eqn:Hxy; simpl; try done.
  apply String.compare_eq_iff in Hxy as ->.
  intros H1 H2. f_equal. by apply IH.
Qed.

Lemma sorted_names_unique (l1 l2 : list string) :
  l1 ≡ₚ l2 → sorted_names l1 = sorted_names l2.
Proof.
  intros Hperm. unfold sorted_names.
  apply (Sorted_unique String.le); [apply Sorted_merge_sort, _..|].
  by rewrite !merge_sort_Permutation.
Qed.

Lemma sorted_lists_unique (l1 l2 : list (list string)) :
  l1 ≡ₚ l2 → sorted_lists l1 = sorted_lists l2.
Proof.
  intros Hperm. unfold sorted_lists.
  apply (Sorted_unique list_le); [apply Sorted_merge_sort, _..|].
  by rewrite !merge_sort_Permutation.
Qed.

(** ** Shards do not depend on how the graph is enumerated *)

Section same_graph.
Context (g1 g2 : nx.DiGraph).
Hypothesis Hnodup : NoDup (nx.nodes g1).
Hypothesis Hsame : same_graph g1 g2.

Lemma same_graph_nodes x : x ∈ nx.nodes g1 ↔ x ∈ nx.nodes g2.
Proof. destruct Hsame as [Hperm _]. by rewrite Hperm. Qed.

Lemma same_graph_NoDup : NoDup (nx.nodes g2).
Proof. destruct Hsame as [Hperm _]. by rewrite <- Hperm. Qed.

Lemma same_graph_link a b :
  link (nx.to_undirected g1) a b ↔ link (nx.to_undirected g2) a b.
Proof.
  destruct Hsame as [Hperm Hedges].
  unfold link, nx.adjacent, nx.to_undirected. simpl.
  rewrite !bool_decide_spec, !elem_of_app, !list_elem_of_fmap, Hperm.
  assert ((∃ e, (a, b) = (e.2, e.1) ∧ e ∈ nx.edges g1)
          ↔ (∃ e, (a, b) = (e.2, e.1) ∧ e ∈ nx.edges g2)) as ->.
  { split; intros (e & He & Hin); exists e; split; try done; by apply Hedges. }
  by rewrite (Hedges (a, b)).
Qed.

Lemma same_graph_connected a b :
  connected (nx.to_undirected g1) a b ↔ connected (nx.to_undirected g2) a b.
Proof.
  split; apply rtc_subrel; intros x y; apply same_graph_link.
Qed.

Lemma same_graph_component v :
  v ∈ nx.nodes g1 →
  nx.component (nx.to_undirected g1) v ≡ₚ nx.component (nx.to_undirected g2) v.
Proof.
  intros Hv. apply NoDup_Permutation.
  - by apply component_NoDup.
  - apply component_NoDup, same_graph_NoDup.
  - intros x.
    rewrite (elem_of_component (nx.to_undirected g1)) by done.
    rewrite (elem_of_component (nx.to_undirected g2));
      [apply same_graph_connected|apply same_graph_NoDup|].
    by apply same_graph_nodes.
Qed.
End same_graph.

Section classes.
Context (g : nx.DiGraph).
Hypothesis Hnodup : NoDup (nx.nodes g).
Hypothesis Hsym : ∀ a b, nx.adjacent g a b → nx.adjacent g b a.

Lemma component_of_member u v :
  u ∈ nx.nodes g → v ∈ nx.component g u →
  nx.component g v ≡ₚ nx.component g u.
Proof.
  intros Hu Hv.
  assert (v ∈ nx.nodes g) as Hvn by (by eapply component_nodes).
  assert (connected g u v) as Huv by (by apply elem_of_component).
  apply NoDup_Permutation; [by apply component_NoDup..|].
  intros x. rewrite !elem_of_component by done. split; intros Hx.
  - by etrans.
  - etrans; [|exact Hx]. by apply connected_sym.
Qed.

(** The sorted components are the sorted classes of the nodes. *)
Lemma elem_of_sorted_components (s : list string) :
  s ∈ map sorted_names (nx.connected_components g) ↔
  ∃ v, v ∈ nx.nodes g ∧ s = sorted_names (nx.component g v).
Proof.
  destruct (connected_components_spec g Hnodup Hsym) as [Hperm Hall].
  rewrite Forall_forall in Hall. split.
  - intros (c & -> & Hc)%list_elem_of_fmap.
    destruct (Hall c Hc) as (v & Hv & ->). eauto.
  - intros (v & Hv & ->).
    assert (v ∈ concat (nx.connected_components g)) as Hin by (by rewrite Hperm).
    apply elem_of_concat in Hin as (c & Hc & Hvc).
    destruct (Hall c Hc) as (u & Hu & ->).
    apply list_elem_of_fmap. exists (nx.component g u). split; [|done].
    apply sorted_names_unique. by apply component_of_member.
Qed.

Lemma sorted_components_NoDup :
  NoDup (map sorted_names (nx.connected_components g)).
Proof.
  destruct (connected_components_spec g Hnodup Hsym) as [Hperm Hall].
  assert (NoDup (concat (nx.connected_components g))) as Hnd
    by (by rewrite Hperm).
  clear Hperm. induction Hall as [|c cs (v & Hv & ->) _ IH]; [constructor|].
  cbn [concat map] in *. apply NoDup_app in Hnd as (_ & Hdisj & Hnd).
  constructor; [|by apply IH].
  intros (c' & Heq & Hc')%list_elem_of_fmap.
  apply (Hdisj v); [apply component_self|].
  apply elem_of_concat. exists c'. split; [done|].
  assert (v ∈ sorted_names c') as Hin.
  { rewrite <- Heq. unfold sorted_names. rewrite merge_sort_Permutation.
    apply component_self. }
  unfold sorted_names in Hin. by rewrite merge_sort_Permutation in Hin.
Qed.
End classes.

Lemma same_graph_subdags (g1 g2 : nx.DiGraph) (testonly : bool) :
  NoDup (nx.nodes g1) → same_graph g1 g2 →
  make_subdags testonly g1 = make_subdags testonly g2.
Proof.
  intros Hnd Hsame. pose proof (same_graph_NoDup g1 g2 Hnd Hsame) as Hnd2.
  unfold make_subdags. destruct testonly; apply sorted_lists_unique.
  - destruct Hsame as [Hperm _]. by rewrite Hperm.
  - apply NoDup_Permutation.
    + apply sorted_components_NoDup; [done|apply to_undirected_sym].
    + apply sorted_components_NoDup; [done|apply to_undirected_sym].
    + intros s.
      rewrite !elem_of_sorted_components
        by (done || apply to_undirected_sym).
      split; intros (v & Hv & ->); exists v.
      * split; [by apply (same_graph_nodes g1 g2)|].
        apply sorted_names_unique. by apply same_graph_component.
      * assert (v ∈ nx.nodes g1) as Hv1 by (by apply (same_graph_nodes g1 g2)).
        split; [done|].
        apply sorted_names_unique. symmetry. by apply same_graph_component.
Qed.

(** ** Two runs *)

Lemma target_call_agree (w1 w2 : World) (config : Config) (testonly : bool)
    (builder : option RecipeBuilder) (rt : string * Target) :
  (∀ recipe, abspath w1 recipe = abspath w2 recipe) →
  target_call w1 config testonly builder rt
  = target_call w2 config testonly builder rt.
Proof.
  intros Habs. unfold target_call, build_call.
  destruct builder; [by rewrite Habs|done].
Qed.

Lemma build_recipes_calls_agree (w1 w2 : World) (config : Config)
    (mulled_test testonly : bool) (builder : option RecipeBuilder)
    (recipe_targets : gmap string (list Target)) (recipes : list string)
    (s1 s2 : bool) :
  programs_start w1 → programs_start w2 →
  (∀ recipe, abspath w1 recipe = abspath w2 recipe) →
  filter is_build_call
    (trace (for_each recipes
              (λ recipe success,
                 targets <- lift (subscript recipe_targets recipe) ;;
                 for_each targets
                   (build_step w1 config mulled_test testonly builder recipe)
                   success)
              s1))
  = filter is_build_call
      (trace (for_each recipes
                (λ recipe success,
                   targets <- lift (subscript recipe_targets recipe) ;;
                   for_each targets
                     (build_step w2 config mulled_test testonly builder recipe)
                     success)
                s2)).
Proof.
  intros Hs1 Hs2 Habs. revert s1 s2.
  induction recipes as [|recipe recipes IH]; intros s1 s2; [done|].
  cbn [for_each].
  destruct (subscript recipe_targets recipe) as [targets|e].
  - rewrite !bind_lift_returns.
    destruct (build_targets_spec w1 config mulled_test testonly builder Hs1
                recipe targets s1) as [Ho1 Ht1].
    destruct (build_targets_spec w2 config mulled_test testonly builder Hs2
                recipe targets s2) as [Ho2 Ht2].
    rewrite (trace_bind_returns _ _ _ Ho1), (trace_bind_returns _ _ _ Ho2).
    rewrite !filter_app, Ht1, Ht2. f_equal; [|apply IH].
    apply map_ext. intros target. by apply target_call_agree.
  - by rewrite !bind_lift_raises, !bind_raise.
Qed.

Lemma build_all_calls_agree (w1 w2 : World) (config : Config)
    (mulled_test testonly : bool) (builder : option RecipeBuilder)
    (recipe_targets : gmap string (list Target)) (recipes : list string) :
  programs_start w1 → programs_start w2 →
  (∀ recipe, abspath w1 recipe = abspath w2 recipe) →
  filter is_build_call
    (trace (build_all w1 config recipe_targets recipes mulled_test testonly
              builder))
  = filter is_build_call
      (trace (build_all w2 config recipe_targets recipes mulled_test testonly
                builder)).
Proof.
  intros Hs1 Hs2 Habs.
  exact (build_recipes_calls_agree w1 w2 config mulled_test testonly builder
           recipe_targets recipes true true Hs1 Hs2 Habs).
Qed.

(** Nothing is called after the build loop: the report raises. *)
Lemma trace_until_report {A B} (m : M A) (k : A → M B) :
  trace (x <- m ;; report >> k x) = trace m.
Proof.
  destruct m as [t [a|e]]; [|done].
  rewrite report_raises. simpl. by rewrite app_nil_r.
Qed.


Lemma fork_programs_start (broken missing : list string)
    (branch : option string) :
  programs_start
    (Examples.world Examples.fork Examples.chain_recipes broken missing
       branch (Exited 0 "") None None).
Proof.
  repeat split; intros; simpl; try case_decide; eauto.
Qed.

Lemma fork_relisted_same : same_graph Examples.fork Examples.fork_relisted.
Proof.
  split.
  - apply NoDup_Permutation;
      [apply (bool_decide_unpack _); vm_compute; exact I..|].
    intros x. unfold Examples.fork, Examples.fork_relisted. simpl.
    rewrite !elem_of_cons. pose proof (elem_of_nil x). tauto.
  - intros e. unfold Examples.fork, Examples.fork_relisted. simpl.
    rewrite !elem_of_cons. pose proof (elem_of_nil e). tauto.
Qed.


(** * Further properties of the code *)

(** ** More about [build] *)

Lemma build_trace_cases (w : World) (recipe : string) (env : Env)
    (testonly mulled_test : bool) (channels : list string)
    (docker_builder : option RecipeBuilder) :
  trace (build w recipe env testonly mulled_test channels docker_builder)
    = [build_call w recipe env testonly channels docker_builder]
  ∨ (mulled_test = true
     ∧ trace (build w recipe env testonly mulled_test channels docker_builder)
       = [build_call w recipe env testonly channels docker_builder;
          MulledTest (built_package_path w recipe env)]).
Proof.
  unfold build, build_call.
  destruct docker_builder as [builder|].
  - destruct (build_recipe w builder _ _ env) as [rc out|e]; simpl.
    + destruct (decide (rc = 0%Z)); simpl; [|by left].
      destruct (path_exists w _); simpl; [|by left].
      destruct mulled_test; simpl; [|by left].
      right. by destruct (test_package w _).
    + left. by destruct e.
  - destruct (conda_build w _ env) as [rc out|e]; simpl.
    + destruct (decide (rc = 0%Z)); simpl; [|by left].
      destruct mulled_test; simpl; [|by left].
      right. by destruct (test_package w _).
    + left. by destruct e.
Qed.

(** X1. Whatever the programs do, [build] starts the build program
    exactly once, and runs the mulled test at most once, after the build,
    on the built package, and only when [mulled_test] is set. *)
Theorem build_calls (w : World) (recipe : string) (env : Env)
    (testonly mulled_test : bool) (channels : list string)
    (docker_builder : option RecipeBuilder) :
  trace (build w recipe env testonly mulled_test channels docker_builder)
    = [build_call w recipe env testonly channels docker_builder]
  ∨ (mulled_test = true
     ∧ trace (build w recipe env testonly mulled_test channels docker_builder)
       = [build_call w recipe env testonly channels docker_builder;
          MulledTest (built_package_path w recipe env)]).
Proof. apply build_trace_cases. Qed.

(** X2. A build program that exits with a non-zero status makes [build]
    return [False] at once: the mulled test is not run. *)
Theorem build_failure_skips_test (w : World) (recipe : string) (env : Env)
    (testonly mulled_test : bool) (channels : list string)
    (docker_builder : option RecipeBuilder) (rc : Z) (out : string) :
  build_program_result w recipe env testonly channels docker_builder
    = Exited rc out →
  rc ≠ 0%Z →
  build w recipe env testonly mulled_test channels docker_builder
    = ([build_call w recipe env testonly channels docker_builder],
       Returns false).
Proof.
  unfold build_program_result, build, build_call.
  destruct docker_builder as [builder|]; intros -> Hrc; simpl;
    by rewrite decide_False.
Qed.

Lemma build_failure_skips_test_witness :
  build Examples.a_fails "recipes/a" [] false true ["bioconda"] None
  = ([CondaBuild ["conda"; "build"; "recipes/a"] []], Returns false).
Proof.
  apply (build_failure_skips_test Examples.a_fails "recipes/a" [] false true
           ["bioconda"] None 1 "build failed"); [reflexivity|lia].
Defined.

(** X3. The [except] clause only catches the two process errors: when the
    build program cannot be started, the exception leaves [build], and
    nothing else is called. *)
Theorem build_propagates_other_errors (w : World) (recipe : string)
    (env : Env) (testonly mulled_test : bool) (channels : list string)
    (docker_builder : option RecipeBuilder) (e : exn) :
  build_program_result w recipe env testonly channels docker_builder
    = CannotRun e →
  is_caught e = false →
  build w recipe env testonly mulled_test channels docker_builder
    = ([build_call w recipe env testonly channels docker_builder], Raises e).
Proof.
  unfold build_program_result, build, build_call.
  destruct docker_builder as [builder|]; intros -> Hcaught; simpl;
    by destruct e.
Qed.

Lemma build_propagates_other_errors_witness :
  build Examples.no_conda "recipes/a" [] false true ["bioconda"] None
  = ([CondaBuild ["conda"; "build"; "recipes/a"] []],
     Raises (OSError "conda: No such file or directory")).
Proof.
  apply (build_propagates_other_errors Examples.no_conda "recipes/a" []
           false true ["bioconda"] None
           (OSError "conda: No such file or directory")); reflexivity.
Defined.

(** X4. Without a docker builder, [testonly] and [channels] have no effect
    on [build]: the command is always [conda build <recipe>]. *)
Theorem build_without_docker_ignores_options (w : World) (recipe : string)
    (env : Env) (mulled_test : bool) (testonly1 testonly2 : bool)
    (channels1 channels2 : list string) :
  build w recipe env testonly1 mulled_test channels1 None
  = build w recipe env testonly2 mulled_test channels2 None.
Proof. reflexivity. Qed.

(** X5. A failing mulled test turns a successful build into [False]. *)
Theorem build_test_failure (w : World) (recipe : string) (env : Env)
    (testonly : bool) (channels : list string)
    (docker_builder : option RecipeBuilder) (rc : Z) (out : string) :
  outcome (build w recipe env testonly false channels docker_builder)
    = Returns true →
  test_package w (built_package_path w recipe env) = Exited rc out →
  rc ≠ 0%Z →
  outcome (build w recipe env testonly true channels docker_builder)
    = Returns false.
Proof.
  unfold build. intros Hbuild Htest Hrc.
  destruct docker_builder as [builder|].
  - destruct (build_recipe w builder _ _ env) as [rc' out'|e]; simpl in *.
    + destruct (decide (rc' = 0%Z)); simpl in *; [|done].
      destruct (path_exists w _); simpl in *; [|done].
      rewrite Htest. simpl. by rewrite bool_decide_eq_false_2.
    + by destruct e.
  - destruct (conda_build w _ env) as [rc' out'|e]; simpl in *.
    + destruct (decide (rc' = 0%Z)); simpl in *; [|done].
      rewrite Htest. simpl. by rewrite bool_decide_eq_false_2.
    + by destruct e.
Qed.

Lemma build_test_failure_witness :
  outcome (build Examples.tests_fail "recipes/a" [] false true ["bioconda"]
             None)
  = Returns false.
Proof.
  apply (build_test_failure Examples.tests_fail "recipes/a" [] false
           ["bioconda"] None 1 "test failed"); [reflexivity|reflexivity|lia].
Defined.

(** ** More about the loops *)

Lemma trace_bind_Forall {A B} (P : event → Prop) (m : M A) (k : A → M B) :
  Forall P (trace m) → (∀ a, Forall P (trace (k a))) →
  Forall P (trace (bind m k)).
Proof.
  intros Hm Hk. destruct m as [t [a|e]]; simpl in *; [|done].
  specialize (Hk a). destruct (k a) as [t' r]. simpl in *.
  apply Forall_app. by split.
Qed.

Lemma for_each_trace_all {A S} (P : event → Prop) (l : list A)
    (body : A → S → M S) :
  (∀ x s, x ∈ l → Forall P (trace (body x s))) →
  ∀ s, Forall P (trace (for_each l body s)).
Proof.
  induction l as [|x l IH]; intros Hbody s; simpl; [constructor|].
  apply trace_bind_Forall; [apply Hbody; by left|].
  intros s'. apply IH. intros y s'' Hy. apply Hbody. by right.
Qed.

Lemma for_each_app {A S} (l1 l2 : list A) (body : A → S → M S) (s : S) :
  for_each (l1 ++ l2) body s
  = bind (for_each l1 body s) (λ s', for_each l2 body s').
Proof.
  revert s. induction l1 as [|x l1 IH]; intros s; cbn [app for_each].
  - by rewrite bind_ret_l.
  - destruct (body x s) as [t [s'|e]]; [|done]. cbn [bind].
    rewrite IH. destruct (for_each l1 body s') as [t1 [s1|e1]]; [|done].
    cbn [bind]. destruct (for_each l2 body s1) as [t2 r2].
    by rewrite app_assoc.
Qed.

(** X6. A recipe without an entry in [recipe_targets] stops the build
    loop with [KeyError]: the targets of the recipes before it have been
    built, nothing after it is. *)
Theorem build_all_missing_targets (w : World) (config : Config)
    (recipe_targets : gmap string (list Target))
    (before after : list string) (missing : string)
    (mulled_test testonly : bool) (builder : option RecipeBuilder) :
  programs_start w →
  (∀ recipe, recipe ∈ before → is_Some (recipe_targets !! recipe)) →
  recipe_targets !! missing = None →
  outcome (build_all w config recipe_targets (before ++ missing :: after)
             mulled_test testonly builder)
    = Raises (KeyError missing)
  ∧ filter is_build_call
      (trace (build_all w config recipe_targets (before ++ missing :: after)
                mulled_test testonly builder))
    = map (target_call w config testonly builder)
          (planned_targets recipe_targets before).
Proof.
  intros Hstart Hdom Hmissing.
  destruct (build_all_spec w config mulled_test testonly builder Hstart
              recipe_targets before Hdom) as [Hout Htr].
  unfold build_all in *. rewrite for_each_app.
  destruct (for_each before _ true) as [t r]. simpl in Hout, Htr. subst r.
  cbn [bind for_each]. unfold subscript at 1 3. rewrite Hmissing.
  simpl. by rewrite app_nil_r.
Qed.

Lemma build_all_missing_targets_witness :
  outcome (build_all Examples.a_fails Examples.config Examples.chain_targets
             (["recipes/a"; "recipes/b"] ++ "recipes/x" :: ["recipes/c"])
             true false None)
    = Raises (KeyError "recipes/x")
  ∧ filter is_build_call
      (trace (build_all Examples.a_fails Examples.config
                Examples.chain_targets
                (["recipes/a"; "recipes/b"] ++ "recipes/x" :: ["recipes/c"])
                true false None))
    = map (target_call Examples.a_fails Examples.config false None)
          (planned_targets Examples.chain_targets ["recipes/a"; "recipes/b"]).
Proof.
  apply (build_all_missing_targets Examples.a_fails Examples.config
           Examples.chain_targets ["recipes/a"; "recipes/b"] ["recipes/c"]
           "recipes/x" true false None).
  - exact a_fails_programs_start.
  - intros recipe Hin. apply chain_recipes_have_targets.
    unfold Examples.chain_recipes.
    repeat (apply elem_of_cons in Hin as [->|Hin]);
      [by left|by right; left|by apply elem_of_nil in Hin].
  - reflexivity.
Defined.

(** The calls the build loop can make. *)
Lemma build_all_trace (w : World) (config : Config)
    (recipe_targets : gmap string (list Target)) (recipes : list string)
    (mulled_test testonly : bool) (builder : option RecipeBuilder) :
  Forall (λ ev, ∀ token package, ev ≠ AnacondaUpload token package)
    (trace (build_all w config recipe_targets recipes mulled_test testonly
              builder)).
Proof.
  unfold build_all. apply for_each_trace_all. intros recipe s _.
  apply trace_bind_Forall; [constructor|]. intros targets.
  apply for_each_trace_all. intros target s' _.
  apply trace_bind_Forall; [|intros; constructor].
  destruct (build_trace_cases w recipe (env target) testonly mulled_test
              (channels config) builder) as [->|[_ ->]];
    repeat constructor; unfold build_call; destruct builder; done.
Qed.

(** X7. [test_recipes] never uploads anything: in no run, whatever the
    branch and whatever the programs do, is [anaconda upload] called. The
    report of line 270 raises before the upload loop is reached. *)
Theorem test_recipes_never_uploads (w : World) (config : Config)
    (packages : Packages) (mulled_test testonly force docker : bool)
    (token : option string) (package : string) :
  AnacondaUpload token package
    ∉ trace (test_recipes w config packages mulled_test testonly force docker).
Proof.
  assert (Forall (λ ev, ∀ token package, ev ≠ AnacondaUpload token package)
            (trace (test_recipes w config packages mulled_test testonly
                      force docker))) as Hall.
  { unfold test_recipes. case_decide; [constructor|].
    apply trace_bind_Forall; [constructor|]. intros [dag name2recipes].
    case_decide; [constructor|]. case_decide; [constructor|].
    apply trace_bind_Forall; [constructor|]. intros chunk.
    apply trace_bind_Forall; [constructor|]. intros order.
    apply trace_bind_Forall.
    { unfold plan_recipes. apply for_each_trace_all. intros p acc _.
      apply trace_bind_Forall; [constructor|]. intros; constructor. }
    intros recipes.
    apply trace_bind_Forall; [apply build_all_trace|]. intros success.
    rewrite report_raises. constructor. }
  rewrite Forall_forall in Hall. intros Hin. by apply (Hall _ Hin token package).
Qed.

(** X8. [test_recipes] never returns [False]: when it returns, it does so
    through one of the exits before the build loop, with [None] or [True],
    and without having called any program. *)
Theorem test_recipes_return_values (w : World) (config : Config)
    (packages : Packages) (mulled_test testonly force docker : bool)
    (v : value) :
  outcome (test_recipes w config packages mulled_test testonly force docker)
    = Returns v →
  v ≠ PyBool false
  ∧ trace (test_recipes w config packages mulled_test testonly force docker)
    = [].
Proof.
  intros Hout.
  destruct (test_recipes_returns_early _ _ _ _ _ _ _ _ Hout) as [-> [->| ->]];
    by split.
Qed.

Lemma test_recipes_return_values_witness :
  PyBool true ≠ PyBool false
  ∧ trace (test_recipes Examples.third_of_two Examples.config
             (PackagesStr "*") true false false false)
    = [].
Proof.
  apply (test_recipes_return_values Examples.third_of_two Examples.config
           (PackagesStr "*") true false false false (PyBool true)).
  reflexivity.
Defined.

(** ** The upload loop *)

Lemma elem_of_planned_targets (recipe_targets : gmap string (list Target))
    (recipes : list string) (recipe : string) (targets : list Target)
    (target : Target) :
  recipe ∈ recipes → recipe_targets !! recipe = Some targets →
  target ∈ targets → (recipe, target) ∈ planned_targets recipe_targets recipes.
Proof.
  intros Hr Hrt Ht. unfold planned_targets.
  apply list_elem_of_In, in_flat_map. exists recipe.
  split; [by apply list_elem_of_In|]. rewrite Hrt. simpl.
  apply in_map. by apply list_elem_of_In.
Qed.

Lemma upload_all_trace (w : World)
    (recipe_targets : gmap string (list Target)) (recipes : list string)
    (testonly success : bool) :
  Forall (λ ev, testonly = false
                ∧ TRAVIS_BRANCH w = Some "master"
                ∧ TRAVIS_PULL_REQUEST w = Some "false"
                ∧ ∃ rt, rt ∈ planned_targets recipe_targets recipes
                        ∧ package_exists w rt = true
                        ∧ ev = upload_call w rt)
    (trace (upload_all w recipe_targets recipes testonly success)).
Proof.
  unfold upload_all. destruct testonly; cbn [negb]; [constructor|].
  case_bool_decide as Hguard; [|constructor].
  destruct Hguard as [Hbranch Hpr].
  apply for_each_trace_all. intros recipe s Hr.
  unfold subscript. destruct (recipe_targets !! recipe) as [targets|] eqn:Hrt;
    [rewrite bind_lift_returns|constructor].
  apply for_each_trace_all. intros target s' Ht.
  destruct (path_exists w (pkg target)) eqn:Hex; [|constructor].
  apply trace_bind_Forall.
  - constructor; [|constructor]. split_and!; [done..|].
    exists (recipe, target). split_and!; [|done..].
    by eapply elem_of_planned_targets.
  - intros _. destruct (sp_run _) as [[]|e]; [constructor|].
    destruct e; constructor.
Qed.

(** X9. The upload loop only calls [anaconda upload] when [testonly] is
    off, the branch is master and the build is not a pull request, and
    then only with the token of the environment and for a package of a
    planned target that is on disk. *)
Theorem uploads_are_guarded (w : World)
    (recipe_targets : gmap string (list Target)) (recipes : list string)
    (testonly success : bool) (token : option string) (package : string) :
  AnacondaUpload token package
    ∈ trace (upload_all w recipe_targets recipes testonly success) →
  testonly = false
  ∧ TRAVIS_BRANCH w = Some "master"
  ∧ TRAVIS_PULL_REQUEST w = Some "false"
  ∧ token = ANACONDA_TOKEN w
  ∧ path_exists w package = true
  ∧ ∃ rt, rt ∈ planned_targets recipe_targets recipes ∧ package = pkg rt.2.
Proof.
  intros Hin.
  pose proof (upload_all_trace w recipe_targets recipes testonly success)
    as Hall.
  rewrite Forall_forall in Hall.
  destruct (Hall _ Hin) as (Ht & Hb & Hpr & rt & Hrt & Hex & Hev).
  unfold upload_call, package_exists in *. injection Hev as -> ->.
  split_and!; [done..|]. by exists rt.
Qed.

Lemma uploads_are_guarded_witness :
  false = false
  ∧ TRAVIS_BRANCH Examples.on_master = Some "master"
  ∧ TRAVIS_PULL_REQUEST Examples.on_master = Some "false"
  ∧ Some "token" = ANACONDA_TOKEN Examples.on_master
  ∧ path_exists Examples.on_master "recipes/a.tar.bz2" = true
  ∧ ∃ rt, rt ∈ planned_targets Examples.chain_targets Examples.chain_recipes
          ∧ "recipes/a.tar.bz2" = pkg rt.2.
Proof.
  apply (uploads_are_guarded Examples.on_master Examples.chain_targets
           Examples.chain_recipes false true (Some "token")
           "recipes/a.tar.bz2").
  apply (bool_decide_unpack _). vm_compute. exact I.
Defined.

Section upload_loop.
Context (w : World) (recipe_targets : gmap string (list Target)).
Hypothesis Hbranch : TRAVIS_BRANCH w = Some "master".
Hypothesis Hpr : TRAVIS_PULL_REQUEST w = Some "false".

Lemma upload_targets_spec (recipe : string) (targets : list Target)
    (body : Target → bool → M bool) (success : bool) :
  (∀ target s, target ∈ targets →
     body target s
     = if path_exists w (pkg target)
       then ([upload_call w (recipe, target)], Returns s)
       else ([], Returns false)) →
  for_each targets body success
  = (map (upload_call w)
       (filter (λ rt, package_exists w rt)
          (map (λ target, (recipe, target)) targets)),
     Returns (success
              && forallb (package_exists w)
                   (map (λ target, (recipe, target)) targets))).
Proof.
  revert success. induction targets as [|target targets IH];
    intros success Hbody.
  - simpl. by rewrite andb_true_r.
  - cbn [for_each map forallb]. rewrite Hbody by (by left).
    rewrite filter_cons.
    change (package_exists w (recipe, target))
      with (path_exists w (pkg target)).
    destruct (path_exists w (pkg target)); cbn [bind].
    + rewrite IH by (intros t s Ht; apply Hbody; by right).
      rewrite decide_True by done. done.
    + rewrite IH by (intros t s Ht; apply Hbody; by right).
      rewrite decide_False by (by intros []).
      by rewrite andb_false_r.
Qed.

Lemma upload_recipes_spec (recipes : list string) (success : bool)
    (body : string → Target → bool → M bool) :
  (∀ recipe, recipe ∈ recipes → is_Some (recipe_targets !! recipe)) →
  (∀ recipe targets target s,
     recipe ∈ recipes → recipe_targets !! recipe = Some targets →
     target ∈ targets →
     body recipe target s
     = if path_exists w (pkg target)
       then ([upload_call w (recipe, target)], Returns s)
       else ([], Returns false)) →
  for_each recipes
    (λ recipe success,
       targets <- lift (subscript recipe_targets recipe) ;;
       for_each targets (body recipe) success)
    success
  = (map (upload_call w)
       (filter (λ rt, package_exists w rt)
          (planned_targets recipe_targets recipes)),
     Returns (success
              && forallb (package_exists w)
                   (planned_targets recipe_targets recipes))).
Proof.
  revert success. induction recipes as [|recipe recipes IH];
    intros success Hdom Hbody.
  - simpl. by rewrite andb_true_r.
  - destruct (Hdom recipe) as [targets Hrt]; [by left|].
    cbn [for_each]. unfold subscript at 1. rewrite Hrt, bind_lift_returns.
    rewrite (upload_targets_spec recipe targets)
      by (intros t s Ht; eapply Hbody; [by left|done..]).
    cbn [bind]. rewrite IH; [| |].
    + unfold planned_targets. cbn [flat_map]. rewrite Hrt. cbn [default].
      unfold id. by rewrite filter_app, map_app, forallb_app, andb_assoc.
    + intros r Hr. apply Hdom. by right.
    + intros r ts t s Hr. apply Hbody. by right.
Qed.
End upload_loop.

(** X10. On master, outside a pull request and with [testonly] off, when
    every upload that is tried goes through, the upload loop uploads the
    package of every planned target that is on disk, in order, and
    returns [success] turned to [False] if a package is missing. *)
Theorem upload_all_when_uploads_succeed (w : World)
    (recipe_targets : gmap string (list Target)) (recipes : list string)
    (success : bool) :
  TRAVIS_BRANCH w = Some "master" →
  TRAVIS_PULL_REQUEST w = Some "false" →
  (∀ recipe, recipe ∈ recipes → is_Some (recipe_targets !! recipe)) →
  (∀ rt, rt ∈ planned_targets recipe_targets recipes →
         package_exists w rt = true →
         sp_run (anaconda_upload w (ANACONDA_TOKEN w) (pkg rt.2))
         = Returns tt) →
  upload_all w recipe_targets recipes false success
  = (map (upload_call w)
       (filter (λ rt, package_exists w rt)
          (planned_targets recipe_targets recipes)),
     Returns (success
              && forallb (package_exists w)
                   (planned_targets recipe_targets recipes))).
Proof.
  intros Hbranch Hpr Hdom Hup. unfold upload_all. cbn [negb].
  rewrite bool_decide_eq_true_2 by done.
  apply (upload_recipes_spec w recipe_targets recipes success
           (λ recipe target success,
              if path_exists w (pkg target) then _ else _)); [done|].
  intros recipe targets target s Hr Hrt Ht.
  destruct (path_exists w (pkg target)) eqn:Hex; [|done].
  assert (sp_run (anaconda_upload w (ANACONDA_TOKEN w) (pkg target))
          = Returns tt) as Hrun.
  { apply (Hup (recipe, target)); [by eapply elem_of_planned_targets|done]. }
  by rewrite Hrun.
Qed.

Lemma on_master_uploads (rt : string * Target) :
  sp_run (anaconda_upload Examples.on_master
            (ANACONDA_TOKEN Examples.on_master) (pkg rt.2))
  = Returns tt.
Proof. reflexivity. Qed.

Lemma upload_all_when_uploads_succeed_witness :
  upload_all Examples.on_master Examples.chain_targets Examples.chain_recipes
    false true
  = (map (upload_call Examples.on_master)
       (filter (λ rt, package_exists Examples.on_master rt)
          (planned_targets Examples.chain_targets Examples.chain_recipes)),
     Returns (true
              && forallb (package_exists Examples.on_master)
                   (planned_targets Examples.chain_targets
                      Examples.chain_recipes))).
Proof.
  apply (upload_all_when_uploads_succeed Examples.on_master
           Examples.chain_targets Examples.chain_recipes true).
  - reflexivity.
  - reflexivity.
  - exact chain_recipes_have_targets.
  - intros rt _ _. apply on_master_uploads.
Defined.

(** ** Whole runs *)

Lemma py_index_returns {A} (l : list A) (i : Z) (x : A) :
  py_index l i = Returns x → (- Z.of_nat (length l) ≤ i < Z.of_nat (length l))%Z.
Proof.
  unfold py_index. case_decide as Hrange; [|done]. intros _.
  destruct (decide (i < 0)%Z); lia.
Qed.

Lemma py_index_below {A} (l : list A) (i : Z) :
  (i < - Z.of_nat (length l))%Z → py_index l i = Raises IndexError.
Proof.
  intros Hi. unfold py_index. cbv zeta.
  repeat case_decide; try lia; done.
Qed.

Lemma py_index_from_end {A} (l : list A) (i : Z) :
  (- Z.of_nat (length l) ≤ i < 0)%Z →
  py_index l i = py_index l (i + Z.of_nat (length l)).
Proof.
  intros Hi. unfold py_index. cbv zeta.
  rewrite (decide_True (P := (i < 0)%Z)) by lia.
  rewrite (decide_False (P := (i + Z.of_nat (length l) < 0)%Z)) by lia.
  done.
Qed.

(** X11. A run that gets past the three early exits, whose lookups
    succeed and whose programs can be started, builds every target of
    every recipe of the shard, in the planned order, whatever fails on the
    way - and then raises [NameError] instead of returning. *)
Theorem run_builds_shard_then_raises (w : World) (config : Config)
    (packages : Packages) (mulled_test testonly force docker : bool)
    (dag : nx.DiGraph) (name2recipes : Name2Recipes)
    (chunk order : list string) :
  collect_recipes w packages ≠ [] →
  get_dag w
    (dict_keys (filter_recipes w (collect_recipes w packages)
                  (channels config) force))
    = Returns (dag, name2recipes) →
  nx.nodes dag ≠ [] →
  py_index (make_chunks (default 1%Z (SUBDAGS w)) (make_subdags testonly dag))
    (default 0%Z (SUBDAG w)) = Returns chunk →
  plan_packages dag chunk = Returns order →
  (∀ p, p ∈ order → ∃ recipes, name2recipes p = Returns recipes) →
  (∀ recipe, recipe ∈ flat_map (recipes_of name2recipes) order →
     is_Some (dict (filter_recipes w (collect_recipes w packages)
                      (channels config) force) !! recipe)) →
  programs_start w →
  outcome (test_recipes w config packages mulled_test testonly force docker)
    = Raises (NameError "failed")
  ∧ filter is_build_call
      (trace (test_recipes w config packages mulled_test testonly force
                docker))
    = map (target_call w config testonly (make_builder config docker))
        (planned_targets
           (dict (filter_recipes w (collect_recipes w packages)
                    (channels config) force))
           (flat_map (recipes_of name2recipes) order)).
Proof.
  intros Hsome Hdag Hnodes Hchunk Horder Hn2r Hdom Hstart.
  pose proof (py_index_returns _ _ _ Hchunk) as Hrange.
  destruct (build_all_spec w config mulled_test testonly
              (make_builder config docker) Hstart _ _ Hdom) as [Hout Htr].
  unfold test_recipes. rewrite decide_False by done.
  rewrite Hdag, bind_lift_returns. rewrite decide_False by done.
  rewrite decide_False by lia.
  rewrite Hchunk, bind_lift_returns, Horder, bind_lift_returns.
  unfold plan_recipes. rewrite (plan_recipes_go name2recipes order []) by done.
  rewrite app_nil_l.
  change (@pair (list event) (result (list string)) [] (Returns ?x))
    with (ret x).
  rewrite bind_ret_l.
  rewrite (outcome_bind _ _ _ Hout), (trace_bind_returns _ _ _ Hout).
  rewrite report_raises. simpl. by rewrite app_nil_r.
Qed.

Lemma run_builds_shard_then_raises_witness :
  outcome (test_recipes Examples.a_fails Examples.config (PackagesStr "*")
             true false false false)
    = Raises (NameError "failed")
  ∧ filter is_build_call
      (trace (test_recipes Examples.a_fails Examples.config
                (PackagesStr "*") true false false false))
    = map (target_call Examples.a_fails Examples.config false
             (make_builder Examples.config false))
        (planned_targets
           (dict (filter_recipes Examples.a_fails
                    (collect_recipes Examples.a_fails (PackagesStr "*"))
                    (channels Examples.config) false))
           (flat_map (recipes_of (λ p, Returns [Examples.recipe_of p]))
              ["a"; "b"; "c"])).
Proof.
  apply (run_builds_shard_then_raises Examples.a_fails Examples.config
           (PackagesStr "*") true false false false Examples.chain
           (λ p, Returns [Examples.recipe_of p]) ["a"; "b"; "c"]
           ["a"; "b"; "c"]).
  - discriminate.
  - reflexivity.
  - discriminate.
  - vm_compute. reflexivity.
  - vm_compute. reflexivity.
  - intros p _. eauto.
  - exact chain_recipes_have_targets.
  - exact a_fails_programs_start.
Defined.

(** X12. A shard index below [-len(chunks)] is not caught by the test of
    line 222: the run ends with [IndexError], before anything is built. *)
Theorem shard_index_below_range (w : World) (config : Config)
    (packages : Packages) (mulled_test testonly force docker : bool)
    (dag : nx.DiGraph) (name2recipes : Name2Recipes) :
  collect_recipes w packages ≠ [] →
  get_dag w
    (dict_keys (filter_recipes w (collect_recipes w packages)
                  (channels config) force))
    = Returns (dag, name2recipes) →
  nx.nodes dag ≠ [] →
  (default 0 (SUBDAG w)
   < - Z.of_nat (length (make_chunks (default 1 (SUBDAGS w))
                           (make_subdags testonly dag))))%Z →
  test_recipes w config packages mulled_test testonly force docker
    = ([], Raises IndexError).
Proof.
  intros Hsome Hdag Hnodes Hindex.
  unfold test_recipes. rewrite decide_False by done.
  rewrite Hdag, bind_lift_returns. rewrite decide_False by done.
  rewrite decide_False by lia.
  by rewrite py_index_below.
Qed.

Lemma shard_index_below_range_witness :
  test_recipes Examples.below_range Examples.config (PackagesStr "*")
    true false false false = ([], Raises IndexError).
Proof.
  apply (shard_index_below_range Examples.below_range Examples.config
           (PackagesStr "*") true false false false Examples.chain
           (λ package, Returns [Examples.recipe_of package]));
    [discriminate | reflexivity | discriminate | vm_compute; reflexivity].
Defined.

(** X13. With a shard count of zero or less and a shard index that is not
    negative there are no chunks at all: the run returns [True] and
    nothing is built, whatever the graph. *)
Theorem no_shards_nothing_built (w : World) (config : Config)
    (packages : Packages) (mulled_test testonly force docker : bool)
    (dag : nx.DiGraph) (name2recipes : Name2Recipes) :
  collect_recipes w packages ≠ [] →
  get_dag w
    (dict_keys (filter_recipes w (collect_recipes w packages)
                  (channels config) force))
    = Returns (dag, name2recipes) →
  (default 1 (SUBDAGS w) ≤ 0)%Z →
  (0 ≤ default 0 (SUBDAG w))%Z →
  test_recipes w config packages mulled_test testonly force docker
    = ([], Returns (PyBool true)).
Proof.
  intros Hsome Hdag Hn Hi.
  unfold test_recipes. rewrite decide_False by done.
  rewrite Hdag, bind_lift_returns. case_decide; [done|].
  rewrite make_chunks_nonpos by done. by rewrite decide_True.
Qed.

Lemma no_shards_nothing_built_witness :
  test_recipes Examples.zero_shards Examples.config (PackagesStr "*")
    true false false false = ([], Returns (PyBool true)).
Proof.
  apply (no_shards_nothing_built Examples.zero_shards Examples.config
           (PackagesStr "*") true false false false Examples.chain
           (λ package, Returns [Examples.recipe_of package]));
    [discriminate | reflexivity | simpl; lia | simpl; lia].
Defined.

(** ** Cycles *)

Lemma topo_go_raises (es : list (string * string)) (fuel : nat)
    (rem : list string) (e : exn) :
  nx.topo_go fuel es rem = Raises e → e = NetworkXUnfeasible.
Proof.
  revert rem. induction fuel as [|fuel IH]; intros rem.
  - destruct rem; simpl; congruence.
  - destruct (decide (rem = [])) as [->|Hne]; [done|].
    rewrite topo_go_step by done.
    destruct (list_find _ rem) as [[i n]|]; [|congruence].
    destruct (nx.topo_go fuel es _) as [order|e'] eqn:Hrec; [done|].
    intros [= <-]. by eapply IH.
Qed.

Lemma precedes_trans (order : list string) (a b c : string) :
  NoDup order → precedes order a b → precedes order b c → precedes order a c.
Proof.
  intros Hnd (i & j & Hi & Hj & Hij) (j' & k & Hj' & Hk & Hjk).
  assert (j = j') as <- by (by eapply NoDup_lookup).
  exists i, k. split_and!; [done..|lia].
Qed.

Lemma precedes_irrefl (order : list string) (a : string) :
  NoDup order → ¬ precedes order a a.
Proof.
  intros Hnd (i & j & Hi & Hj & Hij).
  assert (i = j) by (by eapply NoDup_lookup). lia.
Qed.

(** X14. A dependency cycle among the packages of the selected chunk is
    rejected: the topological sort raises [NetworkXUnfeasible], so the run
    ends with that error before anything is built. *)
Theorem cycle_is_rejected (w : World) (config : Config)
    (packages : Packages) (mulled_test testonly force docker : bool)
    (dag : nx.DiGraph) (name2recipes : Name2Recipes)
    (chunk : list string) (a : string) :
  collect_recipes w packages ≠ [] →
  get_dag w
    (dict_keys (filter_recipes w (collect_recipes w packages)
                  (channels config) force))
    = Returns (dag, name2recipes) →
  nx.nodes dag ≠ [] →
  py_index (make_chunks (default 1%Z (SUBDAGS w)) (make_subdags testonly dag))
    (default 0%Z (SUBDAG w)) = Returns chunk →
  well_formed dag →
  tc (edge (nx.subgraph dag chunk)) a a →
  plan_packages dag chunk = Raises NetworkXUnfeasible
  ∧ test_recipes w config packages mulled_test testonly force docker
    = ([], Raises NetworkXUnfeasible).
Proof.
  intros Hsome Hdag Hnodes Hchunk [Hnd Hwf] Hcycle.
  assert (plan_packages dag chunk = Raises NetworkXUnfeasible) as Hplan.
  { unfold plan_packages, nx.topological_sort.
    destruct (nx.topo_go _ _ _) as [order|e] eqn:Hgo.
    - exfalso.
      assert (NoDup (nx.nodes (nx.subgraph dag chunk))) as Hsnd
        by (by apply NoDup_filter).
      destruct (topo_go_sound _ _ _ _ Hsnd Hgo) as [Hperm Hprec].
      assert (NoDup order) as Hond by (by rewrite Hperm).
      assert (∀ x y, tc (edge (nx.subgraph dag chunk)) x y →
                     precedes order x y) as Htc.
      { assert (∀ x y, edge (nx.subgraph dag chunk) x y → precedes order x y)
          as Hstep.
        { intros x y Hxy. apply Hprec; [done|..];
            unfold edge in Hxy; simpl in *;
            apply list_elem_of_filter in Hxy as [[Hx Hy] Hxy];
            destruct (Hwf x y Hxy); apply list_elem_of_filter; by split. }
        intros x y Hxy. induction Hxy as [x y Hxy|x y z Hxy _ IH].
        - by apply Hstep.
        - eapply precedes_trans; [done|by apply Hstep|done]. }
      by apply (precedes_irrefl order a Hond), Htc.
    - by apply topo_go_raises in Hgo as ->. }
  split; [done|].
  pose proof (py_index_returns _ _ _ Hchunk) as Hrange.
  unfold test_recipes. rewrite decide_False by done.
  rewrite Hdag, bind_lift_returns. rewrite decide_False by done.
  rewrite decide_False by lia.
  by rewrite Hchunk, bind_lift_returns, Hplan.
Qed.

Lemma cycle_well_formed : well_formed Examples.cycle.
Proof.
  split; [apply (bool_decide_unpack _); vm_compute; exact I|].
  intros a b Hab. unfold edge, Examples.cycle in Hab. simpl in *.
  repeat (apply elem_of_cons in Hab as [[= -> ->]|Hab]);
    [split; apply (bool_decide_unpack _); vm_compute; exact I..|].
  by apply elem_of_nil in Hab.
Qed.

Lemma cycle_has_cycle :
  tc (edge (nx.subgraph Examples.cycle ["a"; "b"])) "a" "a".
Proof.
  apply (tc_l _ _ "b"); [|apply tc_once];
    unfold edge; apply (bool_decide_unpack _); vm_compute; exact I.
Qed.

Lemma cycle_is_rejected_witness :
  plan_packages Examples.cycle ["a"; "b"] = Raises NetworkXUnfeasible
  ∧ test_recipes Examples.cyclic Examples.config (PackagesStr "*")
      true false false false
    = ([], Raises NetworkXUnfeasible).
Proof.
  apply (cycle_is_rejected Examples.cyclic Examples.config (PackagesStr "*")
           true false false false Examples.cycle
           (λ package, Returns [Examples.recipe_of package]) ["a"; "b"] "a").
  - discriminate.
  - reflexivity.
  - discriminate.
  - vm_compute. reflexivity.
  - exact cycle_well_formed.
  - exact cycle_has_cycle.
Defined.

(** ** The recipes and their targets *)

(** X15. The recipes handed to [utils.filter_recipes] are exactly the
    recipes that [utils.get_recipes] finds for one of the package globs
    and whose path relative to the recipe folder is not blacklisted. *)
Theorem collected_recipes_not_blacklisted (w : World) (packages : Packages)
    (recipe : string) :
  recipe ∈ collect_recipes w packages ↔
  ∃ package, package ∈ iter_packages packages
             ∧ recipe ∈ get_recipes w package
             ∧ relpath w recipe ∉ blacklist w.
Proof.
  unfold collect_recipes. rewrite list_elem_of_In, in_flat_map. split.
  - intros (package & Hp & Hr). exists package.
    apply list_elem_of_In, list_elem_of_filter in Hr as [Hbl Hr].
    split_and!; [by apply list_elem_of_In|done..].
  - intros (package & Hp & Hr & Hbl). exists package.
    split; [by apply list_elem_of_In|].
    apply list_elem_of_In, list_elem_of_filter. by split.
Qed.

Lemma concat_chars (s : string) :
  String.concat ""
    (map (λ c, String c EmptyString) (String.list_ascii_of_string s))
  = s.
Proof.
  induction s as [|c s IH]; [done|]. cbn [String.list_ascii_of_string map].
  destruct s as [|c' s]; [done|].
  cbn [String.list_ascii_of_string map] in *.
  cbn [String.concat]. cbn [String.concat] in IH. rewrite IH. done.
Qed.

(** X16. A [packages] string other than ["*"] is not used as one glob:
    the loop of line 178 runs over its characters, so
    [utils.get_recipes] is asked once for each character. *)
Theorem packages_string_is_split (s : string) :
  s ≠ "*" →
  length (iter_packages (PackagesStr s)) = String.length s
  ∧ Forall (λ package, String.length package = 1)
      (iter_packages (PackagesStr s))
  ∧ String.concat "" (iter_packages (PackagesStr s)) = s.
Proof.
  intros Hs. unfold iter_packages. rewrite decide_False by done.
  split_and!.
  - rewrite length_map. clear. induction s as [|c s IH]; [done|].
    simpl. by rewrite IH.
  - apply Forall_forall. intros package (c & -> & _)%list_elem_of_fmap. done.
  - apply concat_chars.
Qed.

Lemma packages_string_is_split_witness :
  length (iter_packages (PackagesStr "bowtie*")) = String.length "bowtie*"
  ∧ Forall (λ package, String.length package = 1)
      (iter_packages (PackagesStr "bowtie*"))
  ∧ String.concat "" (iter_packages (PackagesStr "bowtie*")) = "bowtie*".
Proof.
  apply (packages_string_is_split "bowtie*"). discriminate.
Defined.

(** ** The shape of the chunks *)

Lemma elem_of_slice_go {A} (start step j k : nat) (l : list A) (x : A) :
  l !! k = Some x → start ≤ j + k → (j + k - start) `mod` step = 0 →
  x ∈ slice_go start step j l.
Proof.
  revert j k. induction l as [|y l IH]; intros j k Hk Hle Hmod; [done|].
  cbn [slice_go]. destruct k as [|k]; simplify_eq/=.
  - rewrite Nat.add_0_r in *. rewrite decide_True by done. by left.
  - assert (x ∈ slice_go start step (S j) l) as Hin.
    { apply (IH (S j) k); [done|lia|].
      by replace (S j + k) with (j + S k) by lia. }
    case_decide; [by right|done].
Qed.

Lemma slice_go_subset {A} (start step j : nat) (l : list A) (x : A) :
  x ∈ slice_go start step j l → x ∈ l.
Proof.
  revert j. induction l as [|y l IH]; intros j; cbn [slice_go]; [done|].
  case_decide.
  - intros [->|Hx]%elem_of_cons; [by left|right; by eapply IH].
  - intros Hx. right. by eapply IH.
Qed.

Lemma length_make_chunks (subdags_n : Z) (subdags : list (list string)) :
  (1 ≤ subdags_n)%Z →
  length (make_chunks subdags_n subdags)
  = Z.to_nat subdags_n `min` length subdags.
Proof.
  intros Hn. unfold make_chunks, range. case_decide.
  - rewrite length_map, length_seq. lia.
  - lia.
Qed.

(** A chunk is made of whole subdags. *)
Lemma chunk_of_subdags (subdags_n : Z) (subdags : list (list string))
    (chunk : list string) (x : string) :
  chunk ∈ make_chunks subdags_n subdags → x ∈ chunk →
  ∃ subdag, subdag ∈ subdags ∧ x ∈ subdag ∧ ∀ y, y ∈ subdag → y ∈ chunk.
Proof.
  unfold make_chunks, range, py_slice. case_decide.
  - intros (i & -> & Hi)%list_elem_of_fmap
           (subdag & Hsub & Hx)%elem_of_concat.
    exists subdag. split_and!; [by eapply slice_go_subset|done|].
    intros y Hy. apply elem_of_concat. eauto.
  - intros Hchunk Hx. exists chunk. by split_and!.
Qed.

Lemma chunk_nonempty (subdags_n : Z) (subdags : list (list string))
    (chunk : list string) :
  (1 ≤ subdags_n)%Z →
  (∀ subdag, subdag ∈ subdags → subdag ≠ []) →
  chunk ∈ make_chunks subdags_n subdags → chunk ≠ [].
Proof.
  intros Hn Hne. unfold make_chunks, range, py_slice. case_decide as Hlen.
  - intros (i & -> & Hi)%list_elem_of_fmap. apply elem_of_seq in Hi.
    destruct (lookup_lt_is_Some_2 subdags i) as [subdag Hsub]; [lia|].
    assert (subdag ∈ slice_go i (Z.to_nat subdags_n) 0 subdags) as Hin.
    { apply (elem_of_slice_go _ _ 0 i); [done|lia|].
      replace (0 + i - i) with 0 by lia. apply Nat.Div0.mod_0_l. }
    destruct subdag as [|x subdag].
    { destruct (Hne []); [by eapply list_elem_of_lookup_2|done]. }
    intros Hnil.
    assert (x ∈ concat (slice_go i (Z.to_nat subdags_n) 0 subdags)) as Hx.
    { apply elem_of_concat. exists (x :: subdag). split; [done|by left]. }
    rewrite Hnil in Hx. by apply elem_of_nil in Hx.
  - apply Hne.
Qed.

Lemma subdag_is_component (dag : nx.DiGraph) (subdag : list string) :
  NoDup (nx.nodes dag) →
  subdag ∈ make_subdags false dag →
  ∃ v, v ∈ nx.nodes dag
       ∧ subdag ≡ₚ nx.component (nx.to_undirected dag) v.
Proof.
  intros Hnd. unfold make_subdags, sorted_lists.
  rewrite merge_sort_Permutation.
  intros (c & -> & Hc)%list_elem_of_fmap.
  destruct (connected_components_spec (nx.to_undirected dag) Hnd
              (to_undirected_sym dag)) as [_ Hall].
  rewrite Forall_forall in Hall. destruct (Hall c Hc) as (v & Hv & ->).
  exists v. split; [done|]. unfold sorted_names.
  by rewrite merge_sort_Permutation.
Qed.

Lemma subdag_nonempty (dag : nx.DiGraph) (testonly : bool)
    (subdag : list string) :
  NoDup (nx.nodes dag) →
  subdag ∈ make_subdags testonly dag → subdag ≠ [].
Proof.
  intros Hnd. destruct testonly.
  - unfold make_subdags, sorted_lists. rewrite merge_sort_Permutation.
    by intros (n & -> & _)%list_elem_of_fmap.
  - intros Hsub. destruct (subdag_is_component dag subdag Hnd Hsub)
      as (v & Hv & Hperm).
    intros ->. apply Permutation_nil_l in Hperm.
    pose proof (component_self (nx.to_undirected dag) v) as Hself.
    rewrite <- Hperm in Hself. by apply elem_of_nil in Hself.
Qed.

(** X18. For a shard count of at least 1 there are as many chunks as the
    shard count asks for, or as there are subdags if these are fewer; in
    [testonly] mode there are as many subdags as packages. No chunk is
    empty, so every shard index below the number of chunks has work. *)
Theorem chunks_count (dag : nx.DiGraph) (testonly : bool) (subdags_n : Z) :
  NoDup (nx.nodes dag) →
  (1 ≤ subdags_n)%Z →
  length (make_chunks subdags_n (make_subdags testonly dag))
    = Z.to_nat subdags_n `min` length (make_subdags testonly dag)
  ∧ length (make_subdags true dag) = length (nx.nodes dag)
  ∧ ∀ chunk, chunk ∈ make_chunks subdags_n (make_subdags testonly dag) →
             chunk ≠ [].
Proof.
  intros Hnd Hn. split_and!.
  - by apply length_make_chunks.
  - unfold make_subdags, sorted_lists.
    by rewrite merge_sort_Permutation, length_map.
  - intros chunk. apply chunk_nonempty; [done|].
    intros subdag. by apply subdag_nonempty.
Qed.

Lemma chunks_count_witness :
  length (make_chunks 2 (make_subdags true Examples.chain))
    = Z.to_nat 2 `min` length (make_subdags true Examples.chain)
  ∧ length (make_subdags true Examples.chain)
    = length (nx.nodes Examples.chain)
  ∧ ∀ chunk, chunk ∈ make_chunks 2 (make_subdags true Examples.chain) →
             chunk ≠ [].
Proof.
  apply (chunks_count Examples.chain true 2).
  - apply (bool_decide_unpack _). vm_compute. exact I.
  - lia.
Defined.

Lemma chunk_edge_closed (dag : nx.DiGraph) (subdags_n : Z)
    (chunk : list string) (a b : string) :
  well_formed dag →
  chunk ∈ make_chunks subdags_n (make_subdags false dag) →
  edge dag a b →
  a ∈ chunk ↔ b ∈ chunk.
Proof.
  intros [Hnd Hwf] Hchunk Hab. destruct (Hwf a b Hab) as [Ha Hb].
  assert (∀ x y, nx.adjacent (nx.to_undirected dag) x y →
                 y ∈ nx.nodes dag → x ∈ chunk → y ∈ chunk) as Hstep.
  { intros x y Hadj Hy Hx.
    destruct (chunk_of_subdags _ _ _ _ Hchunk Hx) as (subdag & Hsub & Hxs & Hall).
    destruct (subdag_is_component dag subdag Hnd Hsub) as (v & Hv & Hperm).
    apply Hall. rewrite Hperm. rewrite Hperm in Hxs.
    by apply (component_closed (nx.to_undirected dag) Hnd v Hv x y). }
  assert (nx.adjacent (nx.to_undirected dag) a b) as Hadj.
  { unfold nx.adjacent, nx.to_undirected. simpl.
    apply bool_decide_pack, elem_of_app. by left. }
  split; apply Hstep; [done|done| |done].
  by apply to_undirected_sym.
Qed.

(** X19. Outside [testonly] mode a chunk is closed under dependencies in
    both directions: of two packages joined by an edge of the graph,
    either both are in the chunk or neither is. *)
Theorem chunks_keep_components_together (dag : nx.DiGraph) (subdags_n : Z)
    (chunk : list string) (a b : string) :
  well_formed dag →
  chunk ∈ make_chunks subdags_n (make_subdags false dag) →
  edge dag a b →
  a ∈ chunk ↔ b ∈ chunk.
Proof. apply chunk_edge_closed. Qed.

Lemma chunks_keep_components_together_witness :
  "a" ∈ ["a"; "b"; "c"] ↔ "b" ∈ ["a"; "b"; "c"].
Proof.
  apply (chunks_keep_components_together Examples.chain 2 ["a"; "b"; "c"]
           "a" "b").
  - exact chain_well_formed.
  - apply (bool_decide_unpack _). vm_compute. exact I.
  - unfold edge. apply (bool_decide_unpack _). vm_compute. exact I.
Defined.

(** ** Dependencies inside a shard *)

Lemma plan_packages_topological (dag : nx.DiGraph) (chunk : list string) :
  well_formed dag → acyclic dag →
  NoDup chunk → (∀ p, p ∈ chunk → p ∈ nx.nodes dag) →
  ∃ order,
    plan_packages dag chunk = Returns order
    ∧ order ≡ₚ chunk
    ∧ ∀ a b, edge dag a b → a ∈ chunk → b ∈ chunk → precedes order a b.
Proof.
  intros [Hnd Hwf] Hacyc Hcnd Hcin.
  assert (NoDup (nx.nodes (nx.subgraph dag chunk))) as Hsnd
    by (by apply NoDup_filter).
  assert (nx.nodes (nx.subgraph dag chunk) ≡ₚ chunk) as Hsub.
  { apply NoDup_Permutation; [done..|]. intros p. simpl.
    rewrite list_elem_of_filter. split; [by intros []|auto]. }
  destruct (topo_go_complete (nx.edges (nx.subgraph dag chunk))
              (length (nx.nodes (nx.subgraph dag chunk)))
              (nx.nodes (nx.subgraph dag chunk)))
    as [order Horder]; [by apply subgraph_acyclic|done|].
  destruct (topo_go_sound _ _ _ _ Hsnd Horder) as [Hperm Hprec].
  exists order. split_and!; [done|by rewrite Hperm|].
  intros a b Hab Ha Hb. apply Hprec.
  - simpl. apply list_elem_of_filter. by split.
  - by rewrite Hsub.
  - by rewrite Hsub.
Qed.

(** X20. Outside [testonly] mode, on a well-formed graph without
    cycles, every package that a package of the selected shard depends
    on, directly or through other packages, is in the same shard and
    comes earlier in the planned build order. *)
Theorem dependencies_are_built_first (dag : nx.DiGraph)
    (subdags_n subdag_i : Z) (chunk : list string) (a b : string) :
  well_formed dag →
  acyclic dag →
  py_index (make_chunks subdags_n (make_subdags false dag)) subdag_i
    = Returns chunk →
  tc (edge dag) a b →
  b ∈ chunk →
  ∃ order,
    plan_packages dag chunk = Returns order
    ∧ a ∈ chunk
    ∧ precedes order a b.
Proof.
  intros Hwf Hacyc Hchunk Hab Hb.
  apply py_index_elem_of in Hchunk.
  destruct (chunk_of_nodes dag false subdags_n chunk (proj1 Hwf) Hchunk)
    as [Hcnd Hcin].
  destruct (plan_packages_topological dag chunk Hwf Hacyc Hcnd Hcin)
    as (order & Hplan & Hperm & Hprec).
  exists order. split; [done|].
  assert (NoDup order) as Hond by (by rewrite Hperm).
  clear Hplan. induction Hab as [x y Hxy|x y z Hxy _ IH].
  - assert (x ∈ chunk) as Hx
      by (by apply (chunk_edge_closed dag subdags_n chunk x y)).
    split; [done|]. by apply Hprec.
  - destruct (IH Hb) as [Hy Hyz].
    assert (x ∈ chunk) as Hx
      by (by apply (chunk_edge_closed dag subdags_n chunk x y)).
    split; [done|]. eapply precedes_trans; [done| |done]. by apply Hprec.
Qed.

Lemma chain_a_before_c : tc (edge Examples.chain) "a" "c".
Proof.
  apply (tc_l _ _ "b"); [|apply tc_once];
    unfold edge; apply (bool_decide_unpack _); vm_compute; exact I.
Qed.

Lemma dependencies_are_built_first_witness :
  ∃ order,
    plan_packages Examples.chain ["a"; "b"; "c"] = Returns order
    ∧ "a" ∈ ["a"; "b"; "c"]
    ∧ precedes order "a" "c".
Proof.
  apply (dependencies_are_built_first Examples.chain 1 0 ["a"; "b"; "c"]
           "a" "c").
  - exact chain_well_formed.
  - exact chain_acyclic.
  - vm_compute. reflexivity.
  - exact chain_a_before_c.
  - apply (bool_decide_unpack _). vm_compute. exact I.
Defined.

(** ** Chunk sizes in [testonly] mode *)

Lemma slice_go_snoc {A} (start step j : nat) (l : list A) (x : A) :
  slice_go start step j (l ++ [x])
  = slice_go start step j l
    ++ (if decide (start ≤ j + length l
                   ∧ (j + length l - start) `mod` step = 0)
        then [x] else []).
Proof.
  revert j. induction l as [|y l IH]; intros j; cbn [app slice_go length].
  - rewrite Nat.add_0_r. by case_decide.
  - rewrite IH. replace (S j + length l) with (j + S (length l)) by lia.
    by case_decide.
Qed.

Lemma length_py_slice {A} (n i : nat) (l : list A) :
  i < n →
  length (py_slice i n l)
  = length l / n + (if decide (i < length l `mod` n) then 1 else 0).
Proof.
  intros Hi. unfold py_slice.
  induction l as [|x l IH] using rev_ind.
  - simpl. rewrite Nat.Div0.div_0_l, Nat.Div0.mod_0_l.
    by rewrite decide_False by lia.
  - rewrite slice_go_snoc, !length_app, IH. cbn [length].
    rewrite Nat.add_0_l.
    pose proof (Nat.div_mod_eq (length l) n) as Hl.
    pose proof (Nat.div_mod_eq (length l + 1) n) as Hl1.
    pose proof (Nat.mod_upper_bound (length l) n) as Hr.
    pose proof (Nat.mod_upper_bound (length l + 1) n) as Hr1.
    destruct (decide (length l `mod` n = n - 1)) as [Hwrap|Hwrap].
    + assert ((length l + 1) `mod` n = 0 ∧ (length l + 1) / n = length l / n + 1)
        as [Hm Hd].
      { assert (length l + 1 = n * (length l / n + 1) + 0) as Heq by nia.
        split; symmetry.
        - by apply (Nat.mod_unique _ n (length l / n + 1) 0); [lia|].
        - by apply (Nat.div_unique _ n (length l / n + 1) 0); [lia|]. }
      rewrite Hm, Hd.
      rewrite (decide_False (P := i < 0)) by lia.
      destruct (decide (i ≤ length l ∧ (length l - i) `mod` n = 0))
        as [Hhit|Hmiss].
      * apply (slice_class n i (length l) Hi) in Hhit.
        rewrite decide_False by lia. simpl. lia.
      * assert (i ≠ length l `mod` n) as Hne
          by (intros Heq; apply Hmiss; by apply (slice_class n i (length l) Hi)).
        rewrite decide_True by lia. simpl. lia.
    + assert ((length l + 1) `mod` n = length l `mod` n + 1
              ∧ (length l + 1) / n = length l / n) as [Hm Hd].
      { assert (length l + 1 = n * (length l / n) + (length l `mod` n + 1))
          as Heq by nia.
        split; symmetry.
        - by apply (Nat.mod_unique _ n (length l / n)); [lia|].
        - by apply (Nat.div_unique _ n (length l / n) (length l `mod` n + 1));
            [lia|]. }
      rewrite Hm, Hd.
      destruct (decide (i ≤ length l ∧ (length l - i) `mod` n = 0))
        as [Hhit|Hmiss].
      * apply (slice_class n i (length l) Hi) in Hhit.
        rewrite decide_False by lia. rewrite decide_True by lia. simpl. lia.
      * assert (i ≠ length l `mod` n) as Hne
          by (intros Heq; apply Hmiss; by apply (slice_class n i (length l) Hi)).
        destruct (decide (i < length l `mod` n)).
        -- rewrite decide_True by lia. simpl. lia.
        -- rewrite decide_False by lia. simpl. lia.
Qed.

Lemma length_concat_singletons {A} (ls : list (list A)) :
  (∀ l, l ∈ ls → length l = 1) → length (concat ls) = length ls.
Proof.
  induction ls as [|l ls IH]; intros Hone; [done|].
  cbn [concat length]. rewrite length_app, (Hone l) by left.
  rewrite IH; [done|]. intros l' Hl'. apply Hone. by right.
Qed.

Lemma testonly_subdags_singletons (dag : nx.DiGraph) (subdag : list string) :
  subdag ∈ make_subdags true dag → length subdag = 1.
Proof.
  unfold make_subdags, sorted_lists. rewrite merge_sort_Permutation.
  by intros (n & -> & _)%list_elem_of_fmap.
Qed.

Lemma length_testonly_subdags (dag : nx.DiGraph) :
  length (make_subdags true dag) = length (nx.nodes dag).
Proof.
  unfold make_subdags, sorted_lists.
  by rewrite merge_sort_Permutation, length_map.
Qed.

(** X21. In [testonly] mode every node is a subdag of its own, and the
    chunks are balanced: with [SUBDAGS = n >= 1] and [k] nodes, the chunk at
    index [i] has [k / n] nodes, and one more when [i < k mod n].  So two
    chunks differ by at most one node, and the larger ones come first. *)
Theorem testonly_chunk_sizes (dag : nx.DiGraph) (subdags_n : Z) (i : nat)
    (chunk : list string) :
  (1 ≤ subdags_n)%Z →
  make_chunks subdags_n (make_subdags true dag) !! i = Some chunk →
  length chunk
  = length (nx.nodes dag) / Z.to_nat subdags_n
    + (if decide (i < length (nx.nodes dag) `mod` Z.to_nat subdags_n)
       then 1 else 0).
Proof.
  intros Hn. unfold make_chunks, range.
  rewrite length_testonly_subdags. case_decide as Hlen.
  - rewrite list_lookup_fmap. intros Hi.
    destruct (seq 0 (Z.to_nat subdags_n) !! i) as [i'|] eqn:Hseq;
      [|done].
    apply lookup_seq in Hseq as [-> Hlt]. simplify_eq/=.
    rewrite length_concat_singletons.
    + rewrite length_py_slice by done.
      change (sorted_lists (map (λ n : string, [n]) (nx.nodes dag)))
        with (make_subdags true dag).
      by rewrite length_testonly_subdags.
    + intros l Hl. apply (testonly_subdags_singletons dag).
      by apply slice_go_subset in Hl.
  - intros Hi.
    rewrite (testonly_subdags_singletons dag chunk)
      by (by eapply list_elem_of_lookup_2).
    apply lookup_lt_Some in Hi. rewrite length_testonly_subdags in Hi.
    destruct (decide (length (nx.nodes dag) = Z.to_nat subdags_n)) as [Heq|Hne].
    + rewrite <- Heq, Nat.Div0.mod_same, Nat.div_same by lia.
      by rewrite decide_False by lia.
    + rewrite Nat.div_small, Nat.mod_small by lia.
      by rewrite decide_True by lia.
Qed.

Lemma testonly_chunk_sizes_witness :
  (1 ≤ 2)%Z
  ∧ make_chunks 2 (make_subdags true Examples.chain) !! 0 = Some ["a"; "c"]
  ∧ length ["a"; "c"]
    = length (nx.nodes Examples.chain) / Z.to_nat 2
      + (if decide (0 < length (nx.nodes Examples.chain) `mod` Z.to_nat 2)
         then 1 else 0).
Proof.
  split; [lia|]. split; [by vm_compute|].
  apply (testonly_chunk_sizes Examples.chain 2 0 ["a"; "c"]);
    [lia|by vm_compute].
Defined.
